(** * Whoofy: the three model-wrapper scripts under [yolo/]

    A shallow embedding of [clip_similarity.py], [detect.py] and [ocr.py].

    - Python [float] is IEEE binary64, i.e. Rocq's primitive [float]; the
      comparisons [>=], [>] and the builtin [max] are written with
      [PrimFloat.leb] and [PrimFloat.ltb], so NaN behaves as in Python.
    - A tensor of shape [1, n] is the list of its [n] entries.  The entries of
      a float32 tensor are binary64 values as well ([.item()] and [.tolist()]
      convert exactly).
    - CLIP, torch, YOLO, Tesseract, the file system and the module imports
      are external: each script has a class [World] whose fields they are,
      and the scripts are written once, for every world.
    - A function that returns a value or the dict [{"error": msg}] returns a
      [py A]; the functions of [clip_similarity.py] also thread the process
      state (the model cache and a log of the external calls).
    - Text is modelled as ASCII strings.

    The definitions come first: the scripts, the properties in the words
    of the specification ([Spec]) and concrete worlds to run the scripts on
    ([Ref]). The theorems follow. *)

From Stdlib Require Import ZArith Bool List String Ascii Floats Lia.
From stdpp Require Import gmap strings list pretty.

Set Warnings "-inexact-float,-register-all".
Local Open Scope string_scope.

(** ** Python strings (ASCII) *)
Module PyStr.

(** [str.isspace] on one ASCII character: TAB, LF, VT, FF, CR, the four
    separators FS GS RS US, and the space. *)
Definition is_space (c : ascii) : bool :=
  let n := nat_of_ascii c in
  (Nat.leb 9 n && Nat.leb n 13) || (Nat.leb 28 n && Nat.leb n 31)
  || Nat.eqb n 32.

Definition lower_char (c : ascii) : ascii :=
  let n := nat_of_ascii c in
  if Nat.leb 65 n && Nat.leb n 90 then ascii_of_nat (n + 32) else c.

(** [s.lower()] *)
Fixpoint lower (s : string) : string :=
  match s with
  | EmptyString => EmptyString
  | String c r => String (lower_char c) (lower r)
  end.

(** [s.lstrip()] *)
Fixpoint lstrip (s : string) : string :=
  match s with
  | EmptyString => EmptyString
  | String c r => if is_space c then lstrip r else s
  end.

(** [s.rstrip()]: a character is dropped when it is white space and
    nothing survives to its right. *)
Fixpoint rstrip (s : string) : string :=
  match s with
  | EmptyString => EmptyString
  | String c r =>
      match rstrip r with
      | EmptyString => if is_space c then EmptyString else String c EmptyString
      | r' => String c r'
      end
  end.

(** [s.strip()] *)
Definition strip (s : string) : string := rstrip (lstrip s).

(** [s.split()] with no argument: maximal runs of non-space characters.
    [cur] is the word being read, in reverse. *)
Fixpoint split_aux (cur : list ascii) (s : string) : list string :=
  let flush := match cur with
               | [] => []
               | _ => [string_of_list_ascii (rev cur)]
               end in
  match s with
  | EmptyString => flush
  | String c r =>
      if is_space c then flush ++ split_aux [] r
      else split_aux (c :: cur) r
  end.

Definition split (s : string) : list string := split_aux [] s.

(** [sep.join(l)] *)
Fixpoint join (sep : string) (l : list string) : string :=
  match l with
  | [] => EmptyString
  | [x] => x
  | x :: r => x ++ sep ++ join sep r
  end.

(** [sub in s] *)
Fixpoint contains (sub s : string) : bool :=
  String.prefix sub s ||
  match s with
  | EmptyString => false
  | String _ r => contains sub r
  end.

(** Truth value of a string: non-empty. *)
Definition truthy (s : string) : bool :=
  match s with EmptyString => false | _ => true end.

End PyStr.

(** ** Python floats *)
Module PyFloat.

Local Open Scope float_scope.

(** [x >= y] *)
Definition ge (x y : float) : bool := y <=? x.

(** The builtin [max(a, b)]: the first argument is kept unless the second
    compares strictly greater. *)
Definition max (a b : float) : float := if a <? b then b else a.

End PyFloat.

(** ** JSON values: what [json.load] returns and [json.dumps] prints *)
Module Json.

Inductive json : Type :=
| JNull
| JBool (b : bool)
| JInt (z : Z)
| JNum (f : float)
| JStr (s : string)
| JArr (l : list json)
| JObj (kvs : list (string * json)).

(** [key in d] for a dict. *)
Definition has_key (key : string) (kvs : list (string * json)) : bool :=
  existsb (fun kv => String.eqb (fst kv) key) kvs.

(** [d[key]]; a key repeated in a JSON document keeps its last value. *)
Fixpoint dict_get (key : string) (kvs : list (string * json)) : option json :=
  match kvs with
  | [] => None
  | (k, v) :: r =>
      match dict_get key r with
      | Some v' => Some v'
      | None => if String.eqb k key then Some v else None
      end
  end.

(** [isinstance(x, dict) and "error" in x] *)
Definition is_error_dict (x : json) : bool :=
  match x with
  | JObj kvs => has_key "error" kvs
  | _ => false
  end.

(** [{"error": msg}] *)
Definition error_dict (msg : string) : json := JObj [("error", JStr msg)].

(** The Python list of floats that [Tensor.tolist()] produces. *)
Definition float_list (l : list float) : json := JArr (map JNum l).

(** Reads back a list all of whose elements are floats. *)
Fixpoint as_floats (l : list json) : option (list float) :=
  match l with
  | [] => Some []
  | JNum f :: r =>
      match as_floats r with
      | Some fs => Some (f :: fs)
      | None => None
      end
  | _ => None
  end.

Definition as_float_list (x : json) : option (list float) :=
  match x with
  | JArr l => as_floats l
  | _ => None
  end.

End Json.

(** ** Process outcomes shared by the three command-line tools *)
Module Proc.
Import Json.

(** How a Python process ends: [sys.exit(code)], falling off the end of
    the script ([Exited 0]), or an exception nobody catches. *)
Inductive status : Type :=
| Exited (code : Z)
| Uncaught (exn : string).

(** The interpreter exits with code 1 after an uncaught exception. *)
Definition exit_code (st : status) : Z :=
  match st with
  | Exited c => c
  | Uncaught _ => 1
  end.

(** A function that returns either a value or the dict [{"error": msg}]. *)
Inductive py (A : Type) : Type :=
| Value (a : A)
| ErrorDict (msg : string).
Arguments Value {A} a.
Arguments ErrorDict {A} msg.

End Proc.


(** What a run of a script leaves behind: the lines printed on standard
    output, one JSON document each, and how the process ended. *)
Record run : Type := {
  stdout : list Json.json;
  exit : Proc.status
}.

(** A run that prints the given error messages, one [{"error": msg}] line
    each, and calls [sys.exit(1)]. *)
Definition fail_with (msgs : list string) : run :=
  {| stdout := map Json.error_dict msgs; exit := Proc.Exited 1 |}.

(** ** [clip_similarity.py] *)
Module Clip.
Import Json Proc.
Local Open Scope float_scope.

(** Calls that leave the script. They are logged, most recent first, so
    that "is attempted" and "without reloading" can be stated. *)
Inductive ext_call : Type :=
| ClipLoad
| EncodeImage (image_path : string)
| CosineSimilarity.

Definition is_load (c : ext_call) : bool :=
  match c with ClipLoad => true | _ => false end.

(** [SimilarityResult]: the dict returned by [compute_similarity] and
    [compare_with_embedding]. *)
Record similarity_result : Type := {
  similarity : float;
  matched : bool;
  confidence : string
}.

(** The dict returned by [embed_reference]. *)
Record reference_embedding : Type := {
  embedding : list float;
  dimension : nat
}.

(** Message of the [ValueError] raised by
    [model, preprocess, device = get_model()] when [get_model] returned the
    one-key error dict. *)
Definition unpack_error : string :=
  "not enough values to unpack (expected 3, got 1)".

(** The dict that [compute_similarity] and [compare_with_embedding] build
    from the clamped similarity. Both functions spell it out; it is named
    here for the statements about them. *)
Definition result_dict (s : float) : similarity_result :=
  {| similarity := s;
     matched := PyFloat.ge s 0.30;
     confidence :=
       if PyFloat.ge s 0.45 then "high"
       else if PyFloat.ge s 0.35 then "medium"
       else if PyFloat.ge s 0.30 then "low"
       else "none" |}.

(** Everything the script reaches outside itself. *)
Class World : Type := {
  (** the triple [(model, preprocess, device)] of a loaded CLIP model *)
  clip_model : Type;
  (** outcome of the body of [load_clip_model] at its [n]-th execution in
      the process (device choice, [clip.load("ViT-B/32")], [model.eval()]):
      the triple, or the message of the exception *)
  clip_load : nat -> string + clip_model;
  (** [Image.open(path).convert('RGB')], [preprocess], [.to(device)] and
      [model.encode_image]: the raw embedding, or an exception message *)
  encode_image : clip_model -> string -> string + list float;
  (** [t.norm(dim=-1, keepdim=True)] and [t / n] *)
  tensor_norm : list float -> float;
  tensor_div : list float -> float -> list float;
  (** [torch.cosine_similarity(x1, x2).item()], or an exception message
      (shapes that do not broadcast) *)
  cosine_similarity : list float -> list float -> string + float;
  (** [torch.tensor(x, dtype=torch.float32)] on anything that is not a list
      of floats *)
  torch_tensor_other : json -> string + list float;
  (** the imports of [torch], [clip] and [PIL] succeed *)
  deps_installed : bool;
  (** [os.path.exists] *)
  path_exists : string -> bool;
  (** [open(file)] and [json.load]: the document, or an exception message *)
  read_json : string -> string + json
}.

Section Script.
Context `{W : World}.

(** *** Process state: the module globals and the log *)
Record proc : Type := {
  model_cache : option clip_model;
  calls : list ext_call
}.

(** A fresh interpreter: [_model_cache = None]. The globals [_model_cache],
    [_preprocess_cache] and [_device_cache] are assigned together and only
    [_model_cache] is tested, so one field holds the triple. *)
Definition init : proc := {| model_cache := None; calls := [] |}.

Definition log (c : ext_call) (p : proc) : proc :=
  {| model_cache := model_cache p; calls := c :: calls p |}.

Definition set_cache (h : clip_model) (p : proc) : proc :=
  {| model_cache := Some h; calls := calls p |}.

(** Number of load attempts made so far. *)
Definition loads (p : proc) : nat := length (filter is_load (calls p)).

Definition M (A : Type) : Type := proc -> A * proc.
Definition ret {A} (a : A) : M A := fun p => (a, p).
Definition bind {A B} (c : M A) (k : A -> M B) : M B :=
  fun p => let (a, p') := c p in k a p'.
Definition tell (c : ext_call) : M unit := fun p => (tt, log c p).

Notation "'let!' x ':=' c 'in' k" := (bind c (fun x => k))
  (at level 10, x name, c at level 100, k at level 200).
Notation "'log!' e 'in' k" := (bind (tell e) (fun _ => k))
  (at level 10, e at level 100, k at level 200).

(** *** The functions of the script *)

Definition load_clip_model : M (py clip_model) :=
  fun p =>
    match clip_load (loads p) with
    | inr h => (Value h, log ClipLoad p)
    | inl e => (ErrorDict ("Failed to load CLIP model: " ++ e)%string,
                log ClipLoad p)
    end.

Definition get_model : M (py clip_model) :=
  fun p =>
    match model_cache p with
    | None =>
        let (result, p') := load_clip_model p in
        match result with
        | ErrorDict e => (ErrorDict e, p')
        | Value h => (Value h, set_cache h p')
        end
    | Some h => (Value h, p)
    end.

(** The model a process works with: the cached one, or the one the next
    load returns. *)
Definition serves (p : proc) (h : clip_model) : Prop :=
  fst (get_model p) = Value h.

(** [embedding / embedding.norm(dim=-1, keepdim=True)] *)
Definition l2_normalize (t : list float) : list float :=
  tensor_div t (tensor_norm t).

Definition embed_image (image_path : string) : M (py (list float)) :=
  let! got := get_model in
  match got with
  | ErrorDict _ =>
      ret (ErrorDict ("Failed to embed image: " ++ unpack_error)%string)
  | Value h =>
      log! (EncodeImage image_path) in
      match encode_image h image_path with
      | inl e => ret (ErrorDict ("Failed to embed image: " ++ e)%string)
      | inr raw => ret (Value (l2_normalize raw))
      end
  end.

Definition compute_similarity (reference_image_path frame_image_path : string)
  : M (py similarity_result) :=
  let! ref_embedding := embed_image reference_image_path in
  let! frame_embedding := embed_image frame_image_path in
  match ref_embedding with
  | ErrorDict e => ret (ErrorDict e)
  | Value r =>
      match frame_embedding with
      | ErrorDict e => ret (ErrorDict e)
      | Value f =>
          log! CosineSimilarity in
          match cosine_similarity r f with
          | inl e =>
              ret (ErrorDict ("Failed to compute similarity: " ++ e)%string)
          | inr c =>
              let similarity := PyFloat.max 0.0 c in
              ret (Value
                {| similarity := similarity;
                   matched := PyFloat.ge similarity 0.30;
                   confidence :=
                     if PyFloat.ge similarity 0.45 then "high"
                     else if PyFloat.ge similarity 0.35 then "medium"
                     else if PyFloat.ge similarity 0.30 then "low"
                     else "none" |})
          end
      end
  end.

Definition embed_reference (reference_image_path : string)
  : M (py reference_embedding) :=
  let! emb := embed_image reference_image_path in
  match emb with
  | ErrorDict e => ret (ErrorDict e)
  | Value t => ret (Value {| embedding := t; dimension := length t |})
  end.

(** [torch.tensor(reference_embedding_list, dtype=torch.float32)
    .unsqueeze(0)] *)
Definition torch_tensor (x : json) : string + list float :=
  match as_float_list x with
  | Some l => inr l
  | None => torch_tensor_other x
  end.

Definition compare_with_embedding (frame_image_path : string)
    (reference_embedding_list : json) : M (py similarity_result) :=
  let! got := get_model in
  match got with
  | ErrorDict _ =>
      ret (ErrorDict
             ("Failed to compare with embedding: " ++ unpack_error)%string)
  | Value _ =>
      match torch_tensor reference_embedding_list with
      | inl e =>
          ret (ErrorDict ("Failed to compare with embedding: " ++ e)%string)
      | inr ref_embedding =>
          let! frame_embedding := embed_image frame_image_path in
          match frame_embedding with
          | ErrorDict e => ret (ErrorDict e)
          | Value f =>
              log! CosineSimilarity in
              match cosine_similarity ref_embedding f with
              | inl e =>
                  ret (ErrorDict
                         ("Failed to compare with embedding: " ++ e)%string)
              | inr c =>
                  let similarity := PyFloat.max 0.0 c in
                  ret (Value
                    {| similarity := similarity;
                       matched := PyFloat.ge similarity 0.30;
                       confidence :=
                         if PyFloat.ge similarity 0.45 then "high"
                         else if PyFloat.ge similarity 0.35 then "medium"
                         else if PyFloat.ge similarity 0.30 then "low"
                         else "none" |})
              end
          end
      end
  end.

(** *** The command line *)

(** [json.dumps] of the dicts the functions return. *)
Definition json_of_similarity (r : similarity_result) : json :=
  JObj [("similarity", JNum (similarity r));
        ("match", JBool (matched r));
        ("confidence", JStr (confidence r))].

Definition json_of_reference (r : reference_embedding) : json :=
  JObj [("embedding", float_list (embedding r));
        ("dimension", JInt (Z.of_nat (dimension r)))].

Definition dumps {A} (f : A -> json) (r : py A) : json :=
  match r with
  | Value a => f a
  | ErrorDict msg => error_dict msg
  end.

(** ["embedding" in x]; a [TypeError] when [x] is not a container. *)
Definition embedding_in (x : json) : string + bool :=
  match x with
  | JObj kvs => inr (has_key "embedding" kvs)
  | JArr l =>
      inr (existsb (fun j => match j with
                             | JStr s => String.eqb s "embedding"
                             | _ => false
                             end) l)
  | JStr s => inr (PyStr.contains "embedding" s)
  | _ => inl "TypeError: argument is not iterable"
  end.

(** [x["embedding"]]; only a dict can be indexed by a string. *)
Definition embedding_of (x : json) : string + json :=
  match x with
  | JObj kvs =>
      match dict_get "embedding" kvs with
      | Some v => inr v
      | None => inl "KeyError: 'embedding'"
      end
  | _ => inl "TypeError: indices must be integers"
  end.

(** The [__main__] block, run in a fresh interpreter on [sys.argv]. *)
Definition main (argv : list string) : run * proc :=
  if negb deps_installed then
    (fail_with ["CLIP dependencies not installed. Run: pip install torch torchvision pillow ftfy"], init)
  else
  match argv with
  | [] | [_] =>
      (fail_with
         ["Usage: python clip_similarity.py <command> [args...]";
          "Commands: embed <image_path> | similarity <ref_path> <frame_path> | compare <frame_path> <embedding_json>"],
       init)
  | _ :: command :: args =>
      let command := PyStr.lower command in
      if String.eqb command "embed" then
        match args with
        | [] =>
            (fail_with ["Usage: python clip_similarity.py embed <image_path>"],
             init)
        | image_path :: _ =>
            if negb (path_exists image_path) then
              (fail_with [("Image file not found: " ++ image_path)%string], init)
            else
              let (result, p) := embed_reference image_path init in
              ({| stdout := [dumps json_of_reference result];
                  exit := Exited 0 |}, p)
        end
      else if String.eqb command "similarity" then
        match args with
        | ref_path :: frame_path :: _ =>
            if negb (path_exists ref_path) then
              (fail_with [("Reference image not found: " ++ ref_path)%string],
               init)
            else if negb (path_exists frame_path) then
              (fail_with [("Frame image not found: " ++ frame_path)%string],
               init)
            else
              let (result, p) := compute_similarity ref_path frame_path init in
              ({| stdout := [dumps json_of_similarity result];
                  exit := Exited 0 |}, p)
        | _ =>
            (fail_with
               ["Usage: python clip_similarity.py similarity <reference_image_path> <frame_image_path>"],
             init)
        end
      else if String.eqb command "compare" then
        match args with
        | frame_path :: embedding_file :: _ =>
            if negb (path_exists frame_path) then
              (fail_with [("Frame image not found: " ++ frame_path)%string],
               init)
            else if negb (path_exists embedding_file) then
              (fail_with
                 [("Embedding file not found: " ++ embedding_file)%string],
               init)
            else
              match read_json embedding_file with
              | inl e => ({| stdout := []; exit := Uncaught e |}, init)
              | inr embedding_data =>
                  match embedding_in embedding_data with
                  | inl e => ({| stdout := []; exit := Uncaught e |}, init)
                  | inr false =>
                      (fail_with ["Invalid embedding file format"], init)
                  | inr true =>
                      match embedding_of embedding_data with
                      | inl e => ({| stdout := []; exit := Uncaught e |}, init)
                      | inr l =>
                          let (result, p) :=
                            compare_with_embedding frame_path l init in
                          ({| stdout := [dumps json_of_similarity result];
                              exit := Exited 0 |}, p)
                      end
                  end
              end
        | _ =>
            (fail_with
               ["Usage: python clip_similarity.py compare <frame_image_path> <embedding_json_file>"],
             init)
        end
      else
        (fail_with [("Unknown command: " ++ command)%string], init)
  end.

End Script.
End Clip.

(** ** [detect.py] *)
Module Detect.
Import Json Proc.
Local Open Scope float_scope.

(** One predicted bounding box: [box.cls[0]] and [box.conf[0]]. *)
Record box : Type := {
  cls : Z;
  conf : float
}.

(** One element of the list the model call returns; [boxes] may be
    [None]. *)
Record result : Type := {
  boxes : option (list box)
}.

Class World : Type := {
  yolo_model : Type;
  (** the import of [ultralytics] succeeds *)
  ultralytics_installed : bool;
  (** [YOLO(weights)] *)
  yolo_load : string -> string + yolo_model;
  (** [model.names], class index to class name *)
  names : yolo_model -> gmap Z string;
  (** [model(image_path, conf=confidence_threshold, verbose=False,
      show=False)]: the detector keeps the boxes that pass the confidence
      floor it is given *)
  predict : yolo_model -> string -> float -> string + list result;
  (** [os.path.exists] *)
  path_exists : string -> bool;
  (** [float(s)], [None] for the [ValueError] *)
  py_float : string -> option float;
  (** [list(s)] for a set [s]: some enumeration of it, in an order Python
      does not specify *)
  list_of_set : gset string -> list string;
  list_of_set_perm : forall s, list_of_set s ≡ₚ elements s
}.

Section Script.
Context `{W : World}.

(** The inner loop: [for box in result.boxes], adding the lowercased class
    name of each box; a class index missing from [model.names] raises
    [KeyError]. *)
Fixpoint add_boxes (model : yolo_model) (bs : list box)
    (detected_classes : gset string) : string + gset string :=
  match bs with
  | [] => inr detected_classes
  | b :: rest =>
      let class_id := cls b in
      match names model !! class_id with
      | None => inl (pretty class_id)
      | Some class_name =>
          add_boxes model rest ({[PyStr.lower class_name]} ∪ detected_classes)
      end
  end.

(** The outer loop: [for result in results]. *)
Fixpoint add_results (model : yolo_model) (results : list result)
    (detected_classes : gset string) : string + gset string :=
  match results with
  | [] => inr detected_classes
  | r :: rest =>
      match boxes r with
      | None => add_results model rest detected_classes
      | Some bs =>
          match add_boxes model bs detected_classes with
          | inl e => inl e
          | inr detected_classes' => add_results model rest detected_classes'
          end
      end
  end.

(** The lowercased class name of some box of [bs]. *)
Definition named_in (model : yolo_model) (bs : list box) (x : string) : Prop :=
  exists b class_name,
    b ∈ bs /\ names model !! cls b = Some class_name /\
    x = PyStr.lower class_name.

(** The lowercased class name of some box of some result. *)
Definition detected_in (model : yolo_model) (results : list result) (x : string)
  : Prop :=
  exists r bs, r ∈ results /\ boxes r = Some bs /\ named_in model bs x.

Definition detect_objects (image_path : string) (confidence_threshold : float)
  : py (list string) :=
  match yolo_load "yolov8n.pt" with
  | inl e => ErrorDict e
  | inr model =>
      match predict model image_path confidence_threshold with
      | inl e => ErrorDict e
      | inr results =>
          match add_results model results ∅ with
          | inl e => ErrorDict e
          | inr detected_classes => Value (list_of_set detected_classes)
          end
      end
  end.

(** The [__main__] block on [sys.argv]. *)
Definition main (argv : list string) : run :=
  if negb ultralytics_installed then
    fail_with ["ultralytics not installed. Run: pip install ultralytics"]
  else
  match argv with
  | [] | [_] =>
      fail_with ["Usage: python detect.py <image_path> [confidence_threshold]"]
  | _ :: image_path :: rest =>
      match (match rest with
             | [] => Some 0.25
             | c :: _ => py_float c
             end) with
      | None => {| stdout := []; exit := Uncaught "ValueError" |}
      | Some confidence =>
          if negb (path_exists image_path) then
            fail_with [("Image file not found: " ++ image_path)%string]
          else
            match detect_objects image_path confidence with
            | ErrorDict e => fail_with [e]
            | Value l =>
                {| stdout := [JObj [("objects", JArr (map JStr l))]];
                   exit := Exited 0 |}
            end
      end
  end.

End Script.
End Detect.

(** ** [ocr.py] *)
Module Ocr.
Import Json Proc.

(** The page-segmentation configurations of the three passes:
    [config='--psm 6'], [config='--psm 11'], and no [config]. *)
Inductive psm : Type := Psm6 | Psm11 | PsmDefault.

Definition tesseract_missing : string :=
  "tesseract is not installed or it's not in your PATH. See README file for more information.".

Class World : Type := {
  image : Type;
  (** the imports of [pytesseract] and [PIL] succeed *)
  pytesseract_installed : bool;
  (** [pytesseract.get_tesseract_version()] does not raise *)
  tesseract_available : bool;
  (** [Image.open] *)
  image_open : string -> string + image;
  (** [pytesseract.image_to_string(image, lang='eng', ...)]: the text, or
      the message of the exception *)
  image_to_string : image -> psm -> string + string;
  (** [os.path.exists] *)
  path_exists : string -> bool
}.

Section Script.
Context `{W : World}.

(** The loop over [words]: a word is kept when its lowercase form has not
    been seen. *)
Fixpoint unique_from (seen : gset string) (words : list string) : list string :=
  match words with
  | [] => []
  | word :: rest =>
      let word_lower := PyStr.lower word in
      if bool_decide (word_lower ∈ seen) then unique_from seen rest
      else word :: unique_from ({[word_lower]} ∪ seen) rest
  end.

(** The state after each of the three [try] blocks: the list [texts], and
    [text1] when the first block bound it. *)
Definition after_block (out1 : string + string) : option string * list string :=
  match out1 with
  | inl _ => (None, [])
  | inr o =>
      let text1 := PyStr.strip o in
      (Some text1, if PyStr.truthy text1 then [text1] else [])
  end.

(** [if text2 and text2 != text1]: with [text1] unbound the comparison
    raises [UnboundLocalError], which the bare [except] swallows. *)
Definition after_sparse (text1 : option string) (texts : list string)
    (out2 : string + string) : list string :=
  match out2 with
  | inl _ => texts
  | inr o =>
      let text2 := PyStr.strip o in
      if PyStr.truthy text2 then
        match text1 with
        | None => texts
        | Some t1 => if negb (String.eqb text2 t1) then texts ++ [text2] else texts
        end
      else texts
  end.

Definition after_default (texts : list string) (out3 : string + string)
  : list string :=
  match out3 with
  | inl _ => texts
  | inr o =>
      let text3 := PyStr.strip o in
      if PyStr.truthy text3 && negb (bool_decide (text3 ∈ texts))
      then texts ++ [text3] else texts
  end.

Definition read_text (image_path : string) : py string :=
  if negb tesseract_available then ErrorDict tesseract_missing
  else
    match image_open image_path with
    | inl error_msg =>
        if PyStr.contains "tesseract" (PyStr.lower error_msg)
           || PyStr.contains "not found" (PyStr.lower error_msg)
        then ErrorDict tesseract_missing
        else ErrorDict error_msg
    | inr image =>
        let (text1, texts) := after_block (image_to_string image Psm6) in
        let texts := after_sparse text1 texts (image_to_string image Psm11) in
        let texts := after_default texts (image_to_string image PsmDefault) in
        match texts with
        | [] => Value ""
        | _ =>
            let combined_text := PyStr.join " " texts in
            let words := PyStr.split combined_text in
            Value (PyStr.join " " (unique_from ∅ words))
        end
    end.

(** The [__main__] block on [sys.argv]. *)
Definition main (argv : list string) : run :=
  if negb pytesseract_installed then
    fail_with ["pytesseract not installed. Run: pip install pytesseract pillow"]
  else
  match argv with
  | [] | [_] => fail_with ["Usage: python ocr.py <image_path>"]
  | _ :: image_path :: _ =>
      if negb (path_exists image_path) then
        fail_with [("Image file not found: " ++ image_path)%string]
      else
        match read_text image_path with
        | ErrorDict e => fail_with [e]
        | Value text =>
            {| stdout := [JObj [("text", JStr text)]]; exit := Exited 0 |}
        end
  end.

End Script.
End Ocr.

(** ** The properties the specification states, in its own words *)
Module Spec.
Import Clip.
Local Open Scope float_scope.

(** "match iff similarity >= 0.30; confidence = high >= 0.45,
    medium >= 0.35, low >= 0.30, else none": the four buckets as the
    intervals they denote. *)
Definition meets_thresholds (r : similarity_result) : Prop :=
  let s := similarity r in
  (matched r = true <-> (0.30 <=? s) = true) /\
  (confidence r = "high"%string <-> (0.45 <=? s) = true) /\
  (confidence r = "medium"%string <->
     (0.35 <=? s) = true /\ (0.45 <=? s) = false) /\
  (confidence r = "low"%string <->
     (0.30 <=? s) = true /\ (0.35 <=? s) = false) /\
  (confidence r = "none"%string <-> (0.30 <=? s) = false).

(** "a float in [0,1]" *)
Definition in_unit_interval (s : float) : Prop :=
  (0 <=? s) = true /\ (s <=? 1) = true.

(** "the cosine similarity of the two embeddings, clamped below at zero",
    with the thresholds: what a Similarity Result for the cosine [c] is. *)
Definition scores (c : float) (r : similarity_result) : Prop :=
  similarity r = PyFloat.max 0 c /\
  (0 <=? similarity r) = true /\
  ((c <=? 1) = true -> in_unit_interval (similarity r)) /\
  meets_thresholds r.

(** "a pass is discarded if it produces nothing or duplicates an
    already-collected pass verbatim": one pass added to the collected
    ones. A pass that raised produced no output. *)
Definition collect (texts : list string) (out : string + string) : list string :=
  match out with
  | inl _ => texts
  | inr o =>
      let t := PyStr.strip o in
      if PyStr.truthy t && negb (bool_decide (t ∈ texts))
      then texts ++ [t] else texts
  end.

(** "deduplicated case-insensitively, preserving first-occurrence order":
    a token is dropped when an earlier token equals it up to case. *)
Fixpoint dedup_tokens (earlier words : list string) : list string :=
  match words with
  | [] => []
  | w :: rest =>
      if existsb (fun v => String.eqb (PyStr.lower v) (PyStr.lower w)) earlier
      then dedup_tokens earlier rest
      else w :: dedup_tokens (earlier ++ [w]) rest
  end.

(** The text the specification assigns to the outputs of the passes, given
    in the order block, sparse, default. *)
Definition merged_text (outs : list (string + string)) : string :=
  PyStr.join " "
    (dedup_tokens []
       (PyStr.split (PyStr.join " " (fold_left collect outs [])))).

(** At the end of a run that called [sys.exit] with a code other than 0,
    all the lines printed are error objects. *)
Definition exits_with_error_lines (r : run) : Prop :=
  forall c, exit r = Proc.Exited c -> c <> 0%Z ->
    c = 1%Z /\ Forall (fun j => Json.is_error_dict j = true) (stdout r).

(** A run that ends with code 0 printed one line, and not an error
    object. *)
Definition success_prints_one_value (r : run) : Prop :=
  exit r = Proc.Exited 0 ->
  exists j, stdout r = [j] /\ Json.is_error_dict j = false.

End Spec.

(** ** Concrete worlds, to run the scripts on

    The tensor operations follow the formulas of the PyTorch documentation
    and are evaluated in binary64 (torch evaluates them in binary32). *)
Module Ref.
Import Json Proc.
Local Open Scope float_scope.

Definition fsum (l : list float) : float := fold_left PrimFloat.add l 0.

(** [t.norm()] *)
Definition norm (t : list float) : float :=
  sqrt (fsum (map (fun x => x * x) t)).

(** [t / n] *)
Definition div (t : list float) (n : float) : list float :=
  map (fun x => x / n) t.

(** [x.clamp_min(lo)] *)
Definition clamp_min (x lo : float) : float := if x <? lo then lo else x.

(** A dimension of size one is expanded to size [n]. *)
Definition broadcast (n : nat) (t : list float) : list float :=
  match t with
  | [x] => repeat x n
  | _ => t
  end.

Fixpoint dot (a b : list float) : list float :=
  match a, b with
  | x :: a', y :: b' => x * y :: dot a' b'
  | _, _ => []
  end.

(** [torch.cosine_similarity(x1, x2, dim=1, eps=1e-8)]:
    the sum of [x1 / max(|x1|, eps) * x2 / max(|x2|, eps)]. *)
Definition cosine (x1 x2 : list float) : string + float :=
  let n := Nat.max (length x1) (length x2) in
  let a := broadcast n x1 in
  let b := broadcast n x2 in
  if Nat.eqb (length a) (length b) then
    inr (fsum (dot (div a (clamp_min (norm a) 1e-8))
                   (div b (clamp_min (norm b) 1e-8))))
  else inl "The size of tensor a must match the size of tensor b at non-singleton dimension 1".

(** A file system with three images that decode, one that does not, and
    two JSON files. *)
Definition files : list string :=
  ["ref.jpg"; "frame.jpg"; "other.jpg"; "corrupt.jpg"; "emb.json"; "bad.json"].

Definition exists_in (fs : list string) (path : string) : bool :=
  existsb (String.eqb path) fs.

Definition encode (_ : unit) (path : string) : string + list float :=
  if String.eqb path "ref.jpg" then inr [3; 4]
  else if String.eqb path "frame.jpg" then inr [2; 0]
  else if String.eqb path "other.jpg" then inr [-1; 0]
  else inl "cannot identify image file".

Definition documents (path : string) : string + json :=
  if String.eqb path "emb.json" then
    inr (JObj [("embedding", float_list [3; 4]); ("dimension", JInt 2)])
  else if String.eqb path "bad.json" then
    inr (JObj [("dimension", JInt 2)])
  else inl "JSONDecodeError".

(** A machine on which the model loads at every attempt. *)
Definition clip_world : Clip.World := {|
  Clip.clip_model := unit;
  Clip.clip_load := fun _ => inr tt;
  Clip.encode_image := encode;
  Clip.tensor_norm := norm;
  Clip.tensor_div := div;
  Clip.cosine_similarity := cosine;
  Clip.torch_tensor_other := fun _ => inl "TypeError";
  Clip.deps_installed := true;
  Clip.path_exists := exists_in files;
  Clip.read_json := documents
|}.

(** The same machine, except that the first load attempt fails. *)
Definition flaky_world : Clip.World := {|
  Clip.clip_model := unit;
  Clip.clip_load := fun n => match n with
                             | O => inl "CUDA out of memory"
                             | S _ => inr tt
                             end;
  Clip.encode_image := encode;
  Clip.tensor_norm := norm;
  Clip.tensor_div := div;
  Clip.cosine_similarity := cosine;
  Clip.torch_tensor_other := fun _ => inl "TypeError";
  Clip.deps_installed := true;
  Clip.path_exists := exists_in files;
  Clip.read_json := documents
|}.

(** A detector with two classes that finds boxes in one image only. *)
Definition detections (_ : unit) (path : string) (_ : float)
  : string + list Detect.result :=
  if String.eqb path "street.jpg" then
    inr [ {| Detect.boxes :=
               Some [ {| Detect.cls := 0; Detect.conf := 0.9 |};
                      {| Detect.cls := 16; Detect.conf := 0.5 |};
                      {| Detect.cls := 0; Detect.conf := 0.4 |} ] |} ]
  else inr [ {| Detect.boxes := Some [] |} ].

Definition detect_world : Detect.World := {|
  Detect.yolo_model := unit;
  Detect.ultralytics_installed := true;
  Detect.yolo_load := fun _ => inr tt;
  Detect.names := fun _ => <[0%Z := "Person"%string]> (<[16%Z := "dog"%string]> ∅);
  Detect.predict := detections;
  Detect.path_exists := exists_in ["street.jpg"; "empty.jpg"];
  Detect.py_float := fun _ => Some 0.5;
  Detect.list_of_set := elements;
  Detect.list_of_set_perm := fun s => reflexivity (elements s)
|}.

(** An OCR engine whose passes return the texts of the specification's
    example. *)
Definition acme_world : Ocr.World := {|
  Ocr.image := unit;
  Ocr.pytesseract_installed := true;
  Ocr.tesseract_available := true;
  Ocr.image_open := fun _ => inr tt;
  Ocr.image_to_string := fun _ cfg =>
    match cfg with
    | Ocr.Psm6 => inr "Acme Soda 12oz "%string
    | Ocr.Psm11 => inr " SODA can"%string
    | Ocr.PsmDefault => inr "Acme Soda 12oz"%string
    end;
  Ocr.path_exists := exists_in ["label.png"]
|}.

(** An OCR engine whose block pass raises while the sparse pass reads a
    word. *)
Definition block_fails_world : Ocr.World := {|
  Ocr.image := unit;
  Ocr.pytesseract_installed := true;
  Ocr.tesseract_available := true;
  Ocr.image_open := fun _ => inr tt;
  Ocr.image_to_string := fun _ cfg =>
    match cfg with
    | Ocr.Psm6 => inl "TesseractError"%string
    | Ocr.Psm11 => inr "Acme"%string
    | Ocr.PsmDefault => inr ""%string
    end;
  Ocr.path_exists := exists_in ["label.png"]
|}.

End Ref.

(** ** Further properties of the scripts, stated *)
Module Props.
Import Json Proc.

(** The run printed one error line that quotes [path] and ended with
    [sys.exit(1)]. *)
Definition reports_missing (path : string) (r : run) : Prop :=
  exit r = Exited 1 /\
  exists msg, stdout r = [error_dict msg] /\ PyStr.contains path msg = true.

(** A string made of white space only. *)
Fixpoint blank (s : string) : bool :=
  match s with
  | EmptyString => true
  | String c r => PyStr.is_space c && blank r
  end.

(** A string without white space. *)
Fixpoint spaceless (s : string) : bool :=
  match s with
  | EmptyString => true
  | String c r => negb (PyStr.is_space c) && spaceless r
  end.

(** The word being read, when the reading stops. *)
Definition flush (cur : list ascii) : list string :=
  match cur with
  | [] => []
  | _ => [string_of_list_ascii (rev cur)]
  end.

Definition no_space (c : ascii) : bool := negb (PyStr.is_space c).

(** A token: not empty, no white space. *)
Definition is_token (s : string) : Prop :=
  s <> ""%string /\ spaceless s = true.

(** The list [texts] at the end of the three blocks. *)
Definition collected `{W : Ocr.World} (img : Ocr.image) : list string :=
  let st := Ocr.after_block (Ocr.image_to_string img Ocr.Psm6) in
  Ocr.after_default
    (Ocr.after_sparse (fst st) (snd st) (Ocr.image_to_string img Ocr.Psm11))
    (Ocr.image_to_string img Ocr.PsmDefault).

(** Every token of the pass output [o] is in the text [s], up to case. *)
Definition kept_up_to_case (o s : string) : Prop :=
  forall w, w ∈ PyStr.split (PyStr.strip o) ->
  exists v, v ∈ PyStr.split s /\ PyStr.lower v = PyStr.lower w.

(** An OCR pass that contributes nothing: it raised, or read white space
    only. *)
Definition silent (out : string + string) : Prop :=
  match out with
  | inl _ => True
  | inr o => blank o = true
  end.

(** Number of boxes in the results of a model call. *)
Fixpoint count_boxes (results : list Detect.result) : nat :=
  match results with
  | [] => 0
  | r :: rest =>
      match Detect.boxes r with
      | None => count_boxes rest
      | Some bs => length bs + count_boxes rest
      end
  end.

(** Every box of every result has a name in [model.names]. *)
Definition all_named `{W : Detect.World} (model : Detect.yolo_model)
    (results : list Detect.result) : Prop :=
  forall r bs b,
    r ∈ results -> Detect.boxes r = Some bs -> b ∈ bs ->
    is_Some (Detect.names model !! Detect.cls b).

(** Some box has a class index that [model.names] does not hold, and [e]
    is that index in decimal. *)
Definition unnamed_box `{W : Detect.World} (model : Detect.yolo_model)
    (results : list Detect.result) (e : string) : Prop :=
  exists r bs b,
    r ∈ results /\ Detect.boxes r = Some bs /\ b ∈ bs /\
    Detect.names model !! Detect.cls b = None /\ e = pretty (Detect.cls b).

(** The confidence labels, from weakest to strongest. *)
Definition rank (confidence : string) : nat :=
  if String.eqb confidence "high" then 3
  else if String.eqb confidence "medium" then 2
  else if String.eqb confidence "low" then 1
  else 0.

End Props.

(** ** More concrete worlds *)
Module Worlds.
Import Json Proc.
Local Open Scope float_scope.

(** A machine on which the model never loads. *)
Definition no_model_world : Clip.World := {|
  Clip.clip_model := unit;
  Clip.clip_load := fun _ => inl "ViT-B/32 checkpoint not found"%string;
  Clip.encode_image := Ref.encode;
  Clip.tensor_norm := Ref.norm;
  Clip.tensor_div := Ref.div;
  Clip.cosine_similarity := Ref.cosine;
  Clip.torch_tensor_other := fun _ => inl "TypeError"%string;
  Clip.deps_installed := true;
  Clip.path_exists := Ref.exists_in Ref.files;
  Clip.read_json := Ref.documents
|}.

(** The machine of [Ref.clip_world] with a file that holds the line the
    [embed] command prints for the reference image. *)
Definition round_trip_world : Clip.World := {|
  Clip.clip_model := unit;
  Clip.clip_load := fun _ => inr tt;
  Clip.encode_image := Ref.encode;
  Clip.tensor_norm := Ref.norm;
  Clip.tensor_div := Ref.div;
  Clip.cosine_similarity := Ref.cosine;
  Clip.torch_tensor_other := fun _ => inl "TypeError"%string;
  Clip.deps_installed := true;
  Clip.path_exists := Ref.exists_in ("ref.json"%string :: Ref.files);
  Clip.read_json := fun path =>
    if String.eqb path "ref.json" then
      inr (JObj [("embedding", float_list (Ref.div [3; 4] (Ref.norm [3; 4])));
                 ("dimension", JInt 2)])
    else Ref.documents path
|}.


(** A detector that reports a class its table of names does not hold. *)
Definition unknown_class_world : Detect.World := {|
  Detect.yolo_model := unit;
  Detect.ultralytics_installed := true;
  Detect.yolo_load := fun _ => inr tt;
  Detect.names := fun _ => <[0%Z := "person"%string]> ∅;
  Detect.predict := fun _ _ _ =>
    inr [ {| Detect.boxes :=
               Some [ {| Detect.cls := 0; Detect.conf := 0.9 |};
                      {| Detect.cls := 7; Detect.conf := 0.8 |} ] |} ];
  Detect.path_exists := Ref.exists_in ["street.jpg"%string];
  Detect.py_float := fun _ => None;
  Detect.list_of_set := elements;
  Detect.list_of_set_perm := fun s => reflexivity (elements s)
|}.




(** An OCR engine that fails on two passes and reads white space on the
    third. *)
Definition blank_world : Ocr.World := {|
  Ocr.image := unit;
  Ocr.pytesseract_installed := true;
  Ocr.tesseract_available := true;
  Ocr.image_open := fun _ => inr tt;
  Ocr.image_to_string := fun _ cfg =>
    match cfg with
    | Ocr.Psm6 => inl "TesseractError"%string
    | Ocr.Psm11 => inr "   "%string
    | Ocr.PsmDefault => inl "TesseractError"%string
    end;
  Ocr.path_exists := Ref.exists_in ["label.png"%string]
|}.

End Worlds.

(** Case analysis on every test of a script. *)
Ltac split_run :=
  repeat match goal with
         | |- context [if ?b then _ else _] => destruct b
         | |- context [match ?x with _ => _ end] => destruct x
         end.

(** * Properties *)

(** ** Order facts on binary64 *)
Module PyFloatFacts.
Import PyFloat.
Local Open Scope float_scope.

Lemma ltb_leb (x y : float) : (x <? y) = true -> (x <=? y) = true.
Proof.
  rewrite ltb_spec, leb_spec. unfold SFltb, SFleb.
  destruct (SFcompare (Prim2SF x) (Prim2SF y)) as [[ | | ]|]; congruence.
Qed.

(** [<=] is transitive on binary64 (a NaN is below and above nothing). *)
Lemma leb_trans (x y z : float) :
  (x <=? y) = true -> (y <=? z) = true -> (x <=? z) = true.
Proof.
  rewrite !leb_spec. unfold SFleb, SFcompare.
  destruct (Prim2SF x) as [[]|[]| |[] mx ex],
           (Prim2SF y) as [[]|[]| |[] my ey],
           (Prim2SF z) as [[]|[]| |[] mz ez];
    try congruence; try reflexivity;
    rewrite ?Pos.compare_cont_spec; simpl Pos.switch_Eq;
    destruct (Z.compare_spec ex ey), (Z.compare_spec ey ez),
             (Z.compare_spec ex ez);
    try congruence; try lia; subst;
    destruct (Pos.compare_spec mx my), (Pos.compare_spec my mz),
             (Pos.compare_spec mx mz);
    simpl; try congruence; try lia.
Qed.

(** [max(0.0, s)] is never a NaN and never negative. *)
Lemma max0_nonneg (s : float) : ge (max 0 s) 0 = true.
Proof.
  unfold ge, max. destruct (0 <? s) eqn:E.
  - now apply ltb_leb.
  - reflexivity.
Qed.

Lemma max0_le (s b : float) :
  (0 <=? b) = true -> (s <=? b) = true -> (max 0 s <=? b) = true.
Proof. unfold max. now destruct (0 <? s). Qed.

End PyFloatFacts.

Module JsonFacts.
Import Json.

Lemma as_floats_map (l : list float) : as_floats (map JNum l) = Some l.
Proof. induction l as [|f l IH]; simpl; [reflexivity | now rewrite IH]. Qed.

Lemma as_float_list_float_list (l : list float) :
  as_float_list (float_list l) = Some l.
Proof. apply as_floats_map. Qed.

Lemma is_error_dict_error_dict (msg : string) :
  is_error_dict (error_dict msg) = true.
Proof. reflexivity. Qed.

End JsonFacts.

(** ** The reference tensor operations *)
Module RefFacts.
Import Ref.
Local Open Scope float_scope.

(** Multiplication of binary64 numbers is commutative. *)
Lemma float_mul_comm (x y : float) : x * y = y * x.
Proof.
  apply Prim2SF_inj. rewrite !mul_spec. unfold SF64mul, SFmul.
  destruct (Prim2SF x) as [sx|sx| |sx mx ex], (Prim2SF y) as [sy|sy| |sy my ey];
    try reflexivity; rewrite (xorb_comm sx sy); try reflexivity.
  now rewrite (Pos.mul_comm mx my), (Z.add_comm ex ey).
Qed.

Lemma dot_comm (a b : list float) : dot a b = dot b a.
Proof.
  revert b. induction a as [|x a IH]; intros [|y b]; simpl; try reflexivity.
  now rewrite IH, float_mul_comm.
Qed.

(** The reference cosine does not depend on the order of its arguments. *)
Lemma cosine_comm (x y : list float) : cosine x y = cosine y x.
Proof.
  unfold cosine. rewrite (Nat.max_comm (length y) (length x)).
  rewrite (Nat.eqb_sym (length (broadcast _ y))).
  destruct (Nat.eqb _ _); [|reflexivity]. now rewrite dot_comm.
Qed.

(** Rounding can push the cosine of a vector with itself above one, here
    in binary64: the bound of the cosine by one is a premise below, not a
    fact about floating-point arithmetic. *)
Example reference_cosine_can_exceed_one :
  exists c, cosine [1; 1; 1] [1; 1; 1] = inr c /\ (1 <? c) = true.
Proof. eexists. split; vm_compute; reflexivity. Qed.

End RefFacts.

(** ** [clip_similarity.py]: the functions *)
Module ClipFacts.
Import Json Proc Clip Spec PyFloatFacts JsonFacts RefFacts.
Local Open Scope float_scope.

(** The dict built from a clamped similarity obeys the thresholds of the
    specification, read as intervals. *)
Lemma result_dict_meets_thresholds (s : float) :
  meets_thresholds (result_dict s).
Proof.
  unfold meets_thresholds, result_dict, PyFloat.ge; simpl.
  assert (H1 : (0.45 <=? s) = true -> (0.35 <=? s) = true)
    by (apply leb_trans; reflexivity).
  assert (H2 : (0.35 <=? s) = true -> (0.30 <=? s) = true)
    by (apply leb_trans; reflexivity).
  destruct (0.45 <=? s) eqn:E45, (0.35 <=? s) eqn:E35, (0.30 <=? s) eqn:E30;
    repeat split; intros; try tauto; try congruence;
    try (exfalso; (discriminate (H1 eq_refl) || discriminate (H2 eq_refl)));
    try match goal with H : _ /\ _ |- _ => destruct H; congruence end.
Qed.

(** The clamped value is in the unit interval as soon as the cosine is at
    most one. *)
Lemma max0_in_unit_interval (c : float) :
  (c <=? 1) = true -> in_unit_interval (PyFloat.max 0 c).
Proof.
  intros Hc. split.
  - apply (max0_nonneg c).
  - now apply max0_le.
Qed.

Section Facts.
Context `{W : World}.

Lemma log_cache (c : ext_call) (p : proc) : model_cache (log c p) = model_cache p.
Proof. reflexivity. Qed.

Lemma get_model_cached (p : proc) (h : clip_model) :
  model_cache p = Some h -> get_model p = (Value h, p).
Proof. unfold get_model. now intros ->. Qed.

(** A call that returns a model leaves that model in the cache. *)
Lemma get_model_fills_cache (p p' : proc) (h : clip_model) :
  get_model p = (Value h, p') -> model_cache p' = Some h.
Proof.
  unfold get_model, load_clip_model.
  destruct (model_cache p) as [h0|] eqn:Hc.
  - intros [= <- <-]. exact Hc.
  - destruct (clip_load (loads p)); intros [= <- <-]. reflexivity.
Qed.

Lemma serves_cached (p : proc) (h : clip_model) :
  model_cache p = Some h -> serves p h.
Proof. intros H. unfold serves. now rewrite (get_model_cached _ _ H). Qed.

Lemma serves_get_model (p : proc) (h : clip_model) :
  serves p h -> get_model p = (Value h, snd (get_model p)).
Proof. unfold serves. destruct (get_model p) as [r q]. simpl. now intros ->. Qed.

Lemma serves_after (p : proc) (h : clip_model) :
  serves p h -> model_cache (snd (get_model p)) = Some h.
Proof. intros H. eapply get_model_fills_cache, serves_get_model, H. Qed.

(** What a successful [embed_image] did. *)
Lemma embed_image_value (path : string) (p p' : proc) (e : list float) :
  embed_image path p = (Value e, p') <->
  exists h raw,
    serves p h /\ encode_image h path = inr raw /\ e = l2_normalize raw /\
    p' = log (EncodeImage path) (snd (get_model p)).
Proof.
  split.
  - unfold embed_image, bind, tell, ret, serves.
    destruct (get_model p) as [[h|msg] q]; simpl; [|discriminate].
    destruct (encode_image h path) as [err|raw] eqn:He; [discriminate|].
    intros [= <- <-]. now exists h, raw.
  - intros (h & raw & Hs & He & -> & ->).
    unfold embed_image, bind, tell, ret.
    rewrite (serves_get_model _ _ Hs). simpl. now rewrite He.
Qed.

(** After a successful [embed_image] the model it used is cached. *)
Lemma embed_image_cache (path : string) (p p' : proc) (e : list float) (h : clip_model) :
  embed_image path p = (Value e, p') -> serves p h -> model_cache p' = Some h.
Proof.
  intros He Hs. apply embed_image_value in He as (h' & raw & Hs' & _ & _ & ->).
  rewrite log_cache. now apply serves_after.
Qed.

Lemma embed_image_serves (path : string) (p p' : proc) (e : list float) :
  embed_image path p = (Value e, p') -> exists h, serves p h.
Proof. intros He. apply embed_image_value in He as (h & _ & Hs & _). eauto. Qed.

(** With the model [h] at hand, [embed_image] is [encode_image h] followed
    by the normalisation. *)
Lemma embed_image_with (path : string) (p : proc) (h : clip_model) (raw : list float) :
  serves p h -> encode_image h path = inr raw ->
  embed_image path p =
    (Value (l2_normalize raw), log (EncodeImage path) (snd (get_model p))).
Proof. intros Hs He. apply embed_image_value. now exists h, raw. Qed.

(** What a successful [compute_similarity] did. *)
Lemma compute_similarity_value (a b : string) (p p' : proc) (r : similarity_result) :
  compute_similarity a b p = (Value r, p') <->
  exists e1 e2 c p1 p2,
    embed_image a p = (Value e1, p1) /\ embed_image b p1 = (Value e2, p2) /\
    cosine_similarity e1 e2 = inr c /\
    r = result_dict (PyFloat.max 0 c) /\ p' = log CosineSimilarity p2.
Proof.
  split.
  - unfold compute_similarity, bind, tell, ret.
    destruct (embed_image a p) as [[e1|m1] p1] eqn:E1;
      destruct (embed_image b p1) as [[e2|m2] p2] eqn:E2; try discriminate.
    destruct (cosine_similarity e1 e2) as [err|c] eqn:Hc; [discriminate|].
    intros [= <- <-]. now exists e1, e2, c, p1, p2.
  - intros (e1 & e2 & c & p1 & p2 & E1 & E2 & Hc & -> & ->).
    unfold compute_similarity, bind, tell, ret.
    rewrite E1, E2. simpl. now rewrite Hc.
Qed.

(** What a successful [compare_with_embedding] did. *)
Lemma compare_with_embedding_value (frame : string) (l : json) (p p' : proc)
    (r : similarity_result) :
  compare_with_embedding frame l p = (Value r, p') <->
  exists h t e c p2,
    serves p h /\ torch_tensor l = inr t /\
    embed_image frame (snd (get_model p)) = (Value e, p2) /\
    cosine_similarity t e = inr c /\
    r = result_dict (PyFloat.max 0 c) /\ p' = log CosineSimilarity p2.
Proof.
  split.
  - unfold compare_with_embedding, bind, tell, ret, serves.
    destruct (get_model p) as [[h|msg] q]; simpl; [|discriminate].
    destruct (torch_tensor l) as [err|t]; [discriminate|].
    destruct (embed_image frame q) as [[e|m] p2] eqn:E; [|discriminate].
    destruct (cosine_similarity t e) as [err|c] eqn:Hc; [discriminate|].
    intros [= <- <-]. now exists h, t, e, c, p2.
  - intros (h & t & e & c & p2 & Hs & Ht & E & Hc & -> & ->).
    unfold compare_with_embedding, bind, tell, ret.
    rewrite (serves_get_model _ _ Hs). simpl. rewrite Ht.
    simpl in E. rewrite E. simpl. now rewrite Hc.
Qed.

Lemma torch_tensor_float_list (l : list float) :
  torch_tensor (float_list l) = inr l.
Proof. unfold torch_tensor. now rewrite as_float_list_float_list. Qed.

Lemma result_dict_scores (c : float) : scores c (result_dict (PyFloat.max 0 c)).
Proof.
  split; [reflexivity|]. split; [apply (max0_nonneg c)|].
  split; [apply max0_in_unit_interval|apply result_dict_meets_thresholds].
Qed.

(** C1: when both embeddings are computed, [compute_similarity] returns the
    cosine similarity of the two L2-normalised embeddings clamped below at
    zero (never negative, and in [0,1] when the cosine is at most one),
    [match] true exactly from 0.30 on, and the confidence high from 0.45,
    medium from 0.35, low from 0.30 and none below;
    [compare_with_embedding] clamps and buckets the cosine of the supplied
    list and the frame embedding in the same way. *)
Theorem similarity_result_scores_clamped_cosine
    (ref frame : string) (p p1 p2 : proc) (e1 e2 : list float) (c : float) :
  embed_image ref p = (Value e1, p1) ->
  embed_image frame p1 = (Value e2, p2) ->
  cosine_similarity e1 e2 = inr c ->
  (exists raw1 raw2, e1 = l2_normalize raw1 /\ e2 = l2_normalize raw2) /\
  (exists r,
     compute_similarity ref frame p = (Value r, log CosineSimilarity p2) /\
     scores c r) /\
  (forall (l f : list float) (d : float) (q q2 : proc) (h : clip_model),
     serves q h ->
     embed_image frame (snd (get_model q)) = (Value f, q2) ->
     cosine_similarity l f = inr d ->
     exists r,
       compare_with_embedding frame (float_list l) q
         = (Value r, log CosineSimilarity q2) /\
       scores d r).
Proof.
  intros E1 E2 Hc. split; [|split].
  - apply embed_image_value in E1 as (_ & raw1 & _ & _ & -> & _).
    apply embed_image_value in E2 as (_ & raw2 & _ & _ & -> & _).
    now exists raw1, raw2.
  - exists (result_dict (PyFloat.max 0 c)). split.
    + apply compute_similarity_value. now exists e1, e2, c, p1, p2.
    + apply result_dict_scores.
  - intros l f d q q2 h Hs Ef Hd. exists (result_dict (PyFloat.max 0 d)). split.
    + apply compare_with_embedding_value.
      exists h, l, f, d, q2. repeat split; auto using torch_tensor_float_list.
    + apply result_dict_scores.
Qed.

Lemma serves_unique (p : proc) (h h' : clip_model) :
  serves p h -> serves p h' -> h = h'.
Proof. unfold serves. intros -> [= ->]. reflexivity. Qed.

Lemma embed_reference_value (path : string) (p p' : proc) (er : reference_embedding) :
  embed_reference path p = (Value er, p') ->
  embed_image path p = (Value (embedding er), p') /\
  dimension er = length (embedding er).
Proof.
  unfold embed_reference, bind, ret.
  destruct (embed_image path p) as [[t|m] q]; [|discriminate].
  intros [= <- <-]. split; reflexivity.
Qed.

(** A successful [embed_image] with the model [h]: the raw embedding it
    normalised. *)
Lemma embed_image_raw (path : string) (p p' : proc) (e : list float) (h : clip_model) :
  embed_image path p = (Value e, p') -> serves p h ->
  exists raw, encode_image h path = inr raw /\ e = l2_normalize raw.
Proof.
  intros He Hs. apply embed_image_value in He as (h' & raw & Hs' & Hr & -> & _).
  rewrite (serves_unique _ _ _ Hs Hs'). now exists raw.
Qed.

(** C10: in every result of [compute_similarity] and of
    [compare_with_embedding], [match] is true exactly when the confidence
    is not "none". *)
Theorem match_iff_confidence_not_none
    (a b : string) (l : json) (p p' : proc) (r : similarity_result) :
  compute_similarity a b p = (Value r, p') \/
  compare_with_embedding a l p = (Value r, p') ->
  (matched r = true <-> confidence r <> "none"%string).
Proof.
  intros H.
  assert (exists c, r = result_dict (PyFloat.max 0 c)) as [c ->].
  { destruct H as [H|H].
    - apply compute_similarity_value in H as (_ & _ & c & _ & _ & _ & _ & _ & -> & _).
      now exists c.
    - apply compare_with_embedding_value in H
        as (_ & _ & _ & c & _ & _ & _ & _ & _ & -> & _).
      now exists c. }
  destruct (result_dict_meets_thresholds (PyFloat.max 0 c))
    as (Hm & _ & _ & _ & Hn).
  rewrite Hm, Hn. destruct (0.30 <=? _); split; congruence.
Qed.

(** C2: when the reference embeds and the direct call succeeds, passing the
    list of [embed_reference] to [compare_with_embedding] succeeds with the
    very same result (similarity, match and confidence), whatever processes
    the three calls run in, as long as they work with the same model. *)
Theorem embed_then_compare_reproduces_similarity
    (ref frame : string) (p1 p1' p2 p2' p3 : proc) (h : clip_model)
    (er : reference_embedding) (r : similarity_result) :
  serves p1 h -> serves p2 h -> serves p3 h ->
  embed_reference ref p1 = (Value er, p1') ->
  compute_similarity ref frame p2 = (Value r, p2') ->
  exists p3',
    compare_with_embedding frame (float_list (embedding er)) p3 = (Value r, p3').
Proof.
  intros S1 S2 S3 Er Hr.
  apply embed_reference_value in Er as [Er _].
  destruct (embed_image_raw _ _ _ _ _ Er S1) as (raw & Hraw & Heq).
  apply compute_similarity_value in Hr as (e1 & e2 & c & q1 & q2 & E1 & E2 & Hc & -> & _).
  destruct (embed_image_raw _ _ _ _ _ E1 S2) as (raw' & Hraw' & ->).
  assert (raw' = raw) as -> by congruence.
  pose proof (serves_cached _ _ (embed_image_cache _ _ _ _ _ E1 S2)) as Sq1.
  destruct (embed_image_raw _ _ _ _ _ E2 Sq1) as (rawf & Hrawf & ->).
  eexists. apply compare_with_embedding_value.
  eexists h, (embedding er), (l2_normalize rawf), c, _.
  split; [exact S3|]. split; [apply torch_tensor_float_list|].
  split; [apply (embed_image_with _ _ h);
          [apply serves_cached, serves_after, S3|exact Hrawf]|].
  split; [now rewrite Heq|]. split; reflexivity.
Qed.

(** C9: when [torch.cosine_similarity] does not depend on the order of its
    two arguments, a successful [compute_similarity(a, b)] and
    [compute_similarity(b, a)] return the same similarity, match and
    confidence. *)
Theorem compute_similarity_symmetric
    (a b : string) (p p' : proc) (r : similarity_result) :
  (forall x y c, cosine_similarity x y = inr c -> cosine_similarity y x = inr c) ->
  compute_similarity a b p = (Value r, p') ->
  exists p'', compute_similarity b a p = (Value r, p'').
Proof.
  intros Hsym Hr.
  apply compute_similarity_value in Hr as (ea & eb & c & q1 & q2 & Ea & Eb & Hc & -> & _).
  destruct (embed_image_serves _ _ _ _ Ea) as [h Hs].
  destruct (embed_image_raw _ _ _ _ _ Ea Hs) as (ra & Hra & ->).
  pose proof (serves_cached _ _ (embed_image_cache _ _ _ _ _ Ea Hs)) as Sq1.
  destruct (embed_image_raw _ _ _ _ _ Eb Sq1) as (rb & Hrb & ->).
  eexists. apply compute_similarity_value.
  eexists (l2_normalize rb), (l2_normalize ra), c, _, _.
  split; [apply (embed_image_with _ _ h); assumption|].
  split; [apply (embed_image_with _ _ h); [|assumption]|].
  - apply serves_cached. rewrite log_cache. now apply serves_after.
  - split; [now apply Hsym|]. split; reflexivity.
Qed.

(** C6: a cached model is returned without any load; once a call has
    returned a model, every later call returns it and leaves the process
    untouched; a failed load leaves the cache empty, and every call made
    with an empty cache runs the load again. *)
Theorem get_model_caches_success_only (p : proc) :
  (forall h, model_cache p = Some h -> get_model p = (Value h, p)) /\
  (forall h p', get_model p = (Value h, p') ->
     forall n, let q := Nat.iter n (fun q => snd (get_model q)) p' in
               get_model q = (Value h, q) /\ q = p') /\
  (forall e p', get_model p = (ErrorDict e, p') ->
     model_cache p' = None /\ calls p' = ClipLoad :: calls p) /\
  (model_cache p = None ->
     calls (snd (get_model p)) = ClipLoad :: calls p /\
     (fst (get_model p) = match clip_load (loads p) with
                          | inr h => Value h
                          | inl e => ErrorDict ("Failed to load CLIP model: " ++ e)%string
                          end)).
Proof.
  split; [apply get_model_cached|]. split; [|split].
  - intros h p' H n.
    pose proof (get_model_cached _ _ (get_model_fills_cache _ _ _ H)) as Hc.
    induction n as [|n [IH1 IH2]]; simpl.
    + now split.
    + rewrite IH2, Hc. simpl. now split.
  - unfold get_model, load_clip_model. intros e p'.
    destruct (model_cache p) as [h|] eqn:Hc; [discriminate|].
    destruct (clip_load (loads p)); [|discriminate].
    intros [= <- <-]. now split.
  - unfold get_model, load_clip_model. intros ->.
    destruct (clip_load (loads p)); now split.
Qed.

End Facts.

(** The reference and the frame of the concrete world: the cosine is 0.6,
    the confidence high. *)
Lemma similarity_result_scores_clamped_cosine_witness :
  (exists e1 e2 p1 p2 c,
     @embed_image Ref.clip_world "ref.jpg" init = (Value e1, p1) /\
     @embed_image Ref.clip_world "frame.jpg" p1 = (Value e2, p2) /\
     Ref.cosine e1 e2 = inr c) /\
  exists r,
    fst (@compute_similarity Ref.clip_world "ref.jpg" "frame.jpg" init) = Value r /\
    confidence r = "high"%string.
Proof.
  split.
  - do 5 eexists. repeat split; reflexivity.
  - edestruct (@similarity_result_scores_clamped_cosine Ref.clip_world
                 "ref.jpg" "frame.jpg" init) as (_ & (r & Hr & Hs) & _);
      [reflexivity|reflexivity|reflexivity|].
    exists r. split; [now rewrite Hr|].
    destruct Hs as (Hsim & _ & _ & _ & Hhigh & _). apply Hhigh.
    rewrite Hsim. vm_compute. reflexivity.
Defined.

(** Two images whose cosine is negative: no match, confidence none. *)
Lemma match_iff_confidence_not_none_witness :
  exists r p',
    @compute_similarity Ref.clip_world "ref.jpg" "other.jpg" init = (Value r, p') /\
    confidence r = "none"%string /\
    (matched r = true <-> confidence r <> "none"%string).
Proof.
  do 2 eexists. split; [reflexivity|]. split; [reflexivity|].
  eapply (@match_iff_confidence_not_none Ref.clip_world
            "ref.jpg" "other.jpg" JNull init).
  left. reflexivity.
Defined.

(** The three calls in fresh processes of the concrete world. *)
Lemma embed_then_compare_reproduces_similarity_witness :
  exists er r p1' p2',
    @serves Ref.clip_world init tt /\
    @embed_reference Ref.clip_world "ref.jpg" init = (Value er, p1') /\
    @compute_similarity Ref.clip_world "ref.jpg" "frame.jpg" init = (Value r, p2') /\
    exists p3',
      @compare_with_embedding Ref.clip_world
        "frame.jpg" (float_list (embedding er)) init = (Value r, p3').
Proof.
  do 4 eexists. split; [reflexivity|]. split; [reflexivity|]. split; [reflexivity|].
  eapply (@embed_then_compare_reproduces_similarity Ref.clip_world
            "ref.jpg" "frame.jpg" init _ init _ init tt);
    reflexivity.
Defined.

(** The reference cosine is symmetric; the two orders agree. *)
Lemma compute_similarity_symmetric_witness :
  exists r p',
    @compute_similarity Ref.clip_world "ref.jpg" "frame.jpg" init = (Value r, p') /\
    exists p'',
      @compute_similarity Ref.clip_world "frame.jpg" "ref.jpg" init = (Value r, p'').
Proof.
  do 2 eexists. split; [reflexivity|].
  eapply (@compute_similarity_symmetric Ref.clip_world "ref.jpg" "frame.jpg" init).
  - intros x y c. simpl. now rewrite (cosine_comm y x).
  - reflexivity.
Defined.

(** A first load that fails, a second that succeeds, a third call that
    finds the cache: two loads in the log. *)
Lemma get_model_caches_success_only_witness :
  exists e p1 p2,
    @get_model Ref.flaky_world init = (ErrorDict e, p1) /\
    model_cache p1 = None /\
    @get_model Ref.flaky_world p1 = (Value tt, p2) /\
    @get_model Ref.flaky_world p2 = (Value tt, p2) /\
    calls p2 = [ClipLoad; ClipLoad].
Proof.
  destruct (@get_model_caches_success_only Ref.flaky_world init)
    as (_ & _ & Hfail & _).
  destruct (@get_model_caches_success_only Ref.flaky_world
              (snd (@get_model Ref.flaky_world init))) as (_ & Hok & _ & _).
  do 3 eexists. split; [reflexivity|].
  split; [eapply Hfail; reflexivity|].
  split; [reflexivity|].
  split; [apply (Hok tt _ eq_refl 1%nat)|reflexivity].
Defined.

(** On lists of ordinary length the cosine divides by the norm itself: the
    list [3, 4] and its normalised form give the same result. *)
Example compare_with_embedding_ordinary_length :
  fst (@compare_with_embedding Ref.clip_world
         "frame.jpg" (float_list [3; 4]) init) =
  fst (@compare_with_embedding Ref.clip_world
         "frame.jpg" (float_list (@l2_normalize Ref.clip_world [3; 4])) init).
Proof. vm_compute. reflexivity. Qed.

(** C3: [compare_with_embedding] hands the supplied list to
    [torch.cosine_similarity] as it is, without normalising it; with the
    reference tensor operations there are a frame, a list that is not of
    unit length and a positive factor for which the similarity differs from
    the one of the normalised list and from the one of the scaled list. *)
Theorem compare_with_embedding_not_scale_invariant :
  (forall (W : World) (frame : string) (l : list float) (p p' : proc)
          (r : similarity_result),
     compare_with_embedding frame (float_list l) p = (Value r, p') ->
     exists f d q,
       embed_image frame (snd (get_model p)) = (Value f, q) /\
       cosine_similarity l f = inr d /\ similarity r = PyFloat.max 0 d) /\
  exists (frame : string) (l : list float) (k : float)
         (r r' r'' : similarity_result),
    Ref.norm l <> 1 /\ (0 <? k) = true /\
    fst (@compare_with_embedding Ref.clip_world frame (float_list l) init)
      = Value r /\
    fst (@compare_with_embedding Ref.clip_world frame
           (float_list (@l2_normalize Ref.clip_world l)) init) = Value r' /\
    fst (@compare_with_embedding Ref.clip_world frame
           (float_list (map (fun x => k * x) l)) init) = Value r'' /\
    similarity r <> similarity r' /\
    similarity r <> similarity r'' /\
    confidence r <> confidence r'.
Proof.
  split.
  - intros W frame l p p' r H.
    apply compare_with_embedding_value in H
      as (h & t & f & d & q & _ & Ht & Ef & Hd & -> & _).
    rewrite torch_tensor_float_list in Ht. injection Ht as <-.
    now exists f, d, q.
  - exists "frame.jpg"%string, [1e-9; 0], 2.
    do 3 eexists.
    split; [|split; [reflexivity|]].
    { intros H. apply (f_equal (fun x => x <=? 0.5)) in H.
      vm_compute in H. discriminate. }
    split; [vm_compute; reflexivity|].
    split; [vm_compute; reflexivity|].
    split; [vm_compute; reflexivity|].
    split; [|split].
    + intros H. apply (f_equal (fun x => 0.5 <=? x)) in H.
      vm_compute in H. discriminate.
    + intros H. apply (f_equal (fun x => 0.15 <=? x)) in H.
      vm_compute in H. discriminate.
    + intros H. discriminate H.
Qed.

End ClipFacts.

(** ** [clip_similarity.py]: the command line *)
Module ClipMainFacts.
Import Json Proc Clip.

Section Facts.
Context `{W : World}.

(** C8: the [compare] command, given an existing frame and an existing
    embedding file that holds a JSON object without the key "embedding",
    prints the one line [{"error": "Invalid embedding file format"}] and
    exits with code 1, and the process ends as it started: no model load,
    no embedding, no comparison was attempted. *)
Theorem compare_rejects_document_without_embedding
    (prog command frame_path embedding_file : string) (rest : list string)
    (kvs : list (string * json)) :
  deps_installed = true ->
  PyStr.lower command = "compare"%string ->
  path_exists frame_path = true ->
  path_exists embedding_file = true ->
  read_json embedding_file = inr (JObj kvs) ->
  has_key "embedding" kvs = false ->
  let argv := prog :: command :: frame_path :: embedding_file :: rest in
  main argv = (fail_with ["Invalid embedding file format"], init) /\
  exit_code (exit (fst (main argv))) = 1%Z /\
  calls (snd (main argv)) = [].
Proof.
  intros Hdeps Hcmd Hframe Hfile Hread Hkey argv.
  assert (main argv = (fail_with ["Invalid embedding file format"], init)) as ->.
  { unfold argv, main. rewrite Hdeps, Hcmd. simpl.
    rewrite Hframe, Hfile, Hread. simpl. now rewrite Hkey. }
  repeat split.
Qed.

(** The format error is printed for no other reason: a run that prints it
    ran [compare] on a document that does not contain "embedding". *)
Lemma format_error_only_without_embedding (argv : list string) (p : proc) :
  main argv = (fail_with ["Invalid embedding file format"], p) ->
  exists prog command frame_path embedding_file rest embedding_data,
    argv = prog :: command :: frame_path :: embedding_file :: rest /\
    PyStr.lower command = "compare"%string /\
    read_json embedding_file = inr embedding_data /\
    embedding_in embedding_data = inr false /\
    p = init.
Proof.
  unfold main.
  destruct (negb deps_installed); [discriminate|].
  destruct argv as [|prog [|command args]]; try discriminate.
  destruct (String.eqb (PyStr.lower command) "embed").
  { destruct args as [|image_path ?]; [discriminate|].
    destruct (negb (path_exists image_path)); [discriminate|].
    destruct (embed_reference image_path init). discriminate. }
  destruct (String.eqb (PyStr.lower command) "similarity").
  { destruct args as [|ref_path [|frame_path ?]]; try discriminate.
    destruct (negb (path_exists ref_path)); [discriminate|].
    destruct (negb (path_exists frame_path)); [discriminate|].
    destruct (compute_similarity ref_path frame_path init). discriminate. }
  destruct (String.eqb_spec (PyStr.lower command) "compare") as [Hcmd|];
    [|discriminate].
  destruct args as [|frame_path [|embedding_file rest]]; try discriminate.
  destruct (negb (path_exists frame_path)); [discriminate|].
  destruct (negb (path_exists embedding_file)); [discriminate|].
  destruct (read_json embedding_file) as [e|embedding_data] eqn:Hread;
    [discriminate|].
  destruct (embedding_in embedding_data) as [e|[|]] eqn:Hin; try discriminate.
  - destruct (embedding_of embedding_data); [discriminate|].
    destruct (compare_with_embedding frame_path _ init). discriminate.
  - intros [= <-].
    now exists prog, command, frame_path, embedding_file, rest, embedding_data.
Qed.

End Facts.

(** A document with the key "dimension" only. *)
Lemma compare_rejects_document_without_embedding_witness :
  @read_json Ref.clip_world "bad.json" = inr (JObj [("dimension", JInt 2)]) /\
  @main Ref.clip_world ["clip_similarity.py"; "COMPARE"; "frame.jpg"; "bad.json"]
    = (fail_with ["Invalid embedding file format"], init).
Proof.
  split; [reflexivity|].
  apply (@compare_rejects_document_without_embedding Ref.clip_world
           "clip_similarity.py" "COMPARE" "frame.jpg" "bad.json" []
           [("dimension", JInt 2)]);
    reflexivity.
Defined.

End ClipMainFacts.

(** ** [detect.py] *)
Module DetectFacts.
Import Json Proc Detect.

Section Facts.
Context `{W : World}.

Lemma add_boxes_spec (model : yolo_model) (bs : list box) (s s' : gset string) :
  add_boxes model bs s = inr s' ->
  forall x, x ∈ s' <-> x ∈ s \/ named_in model bs x.
Proof.
  revert s. induction bs as [|b bs IH]; simpl; intros s H x.
  - injection H as <-. split; [now left|].
    intros [Hx|(b & n & Hb & _)]; [exact Hx|]. now apply elem_of_nil in Hb.
  - destruct (names model !! cls b) as [n|] eqn:Hn; [|discriminate].
    rewrite (IH _ H x), elem_of_union, elem_of_singleton. split.
    + intros [[->|Hx]|(b' & n' & Hb' & Hn' & ->)].
      * right. exists b, n. split; [apply elem_of_cons; now left|now split].
      * now left.
      * right. exists b', n'. split; [apply elem_of_cons; now right|now split].
    + intros [Hx|(b' & n' & Hb' & Hn' & ->)]; [now left; right|].
      apply elem_of_cons in Hb' as [->|Hb'].
      * left; left. congruence.
      * right. now exists b', n'.
Qed.

Lemma add_results_spec (model : yolo_model) (results : list result)
    (s s' : gset string) :
  add_results model results s = inr s' ->
  forall x, x ∈ s' <-> x ∈ s \/ detected_in model results x.
Proof.
  revert s. induction results as [|r results IH]; simpl; intros s H x.
  - injection H as <-. split; [now left|].
    intros [Hx|(r & bs & Hr & _)]; [exact Hx|]. now apply elem_of_nil in Hr.
  - destruct (boxes r) as [bs|] eqn:Hb.
    + destruct (add_boxes model bs s) as [e|s1] eqn:H1; [discriminate|].
      rewrite (IH _ H x), (add_boxes_spec _ _ _ _ H1 x). split.
      * intros [[Hx|Hn]|(r' & bs' & Hr' & Hb' & Hn')].
        -- now left.
        -- right. exists r, bs. split; [apply elem_of_cons; now left|now split].
        -- right. exists r', bs'. split; [apply elem_of_cons; now right|now split].
      * intros [Hx|(r' & bs' & Hr' & Hb' & Hn')]; [now left; left|].
        apply elem_of_cons in Hr' as [->|Hr'].
        -- left; right. congruence.
        -- right. now exists r', bs'.
    + rewrite (IH _ H x). split.
      * intros [Hx|(r' & bs' & Hr' & Hb' & Hn')]; [now left|].
        right. exists r', bs'. split; [apply elem_of_cons; now right|now split].
      * intros [Hx|(r' & bs' & Hr' & Hb' & Hn')]; [now left|].
        apply elem_of_cons in Hr' as [->|Hr']; [congruence|].
        right. now exists r', bs'.
Qed.

(** Results without a box add nothing. *)
Lemma add_results_no_boxes (model : yolo_model) (results : list result)
    (s : gset string) :
  (forall r, r ∈ results -> boxes r = None \/ boxes r = Some []) ->
  add_results model results s = inr s.
Proof.
  induction results as [|r results IH]; simpl; intros H; [reflexivity|].
  destruct (H r) as [-> | ->]; [apply elem_of_cons; now left| |]; simpl;
    apply IH; intros r' Hr'; apply H, elem_of_cons; now right.
Qed.

(** C7: a successful [detect_objects] returns a list without repetition
    whose elements are exactly the lowercased class names of the boxes the
    detector returned for the image and the threshold; when the detector
    returns no box the call succeeds with the empty list and [main] prints
    [{"objects": []}] and exits with code 0. *)
Theorem detect_objects_distinct_lowercased_names
    (image_path : string) (confidence_threshold : float)
    (model : yolo_model) (results : list result) :
  yolo_load "yolov8n.pt" = inr model ->
  predict model image_path confidence_threshold = inr results ->
  (forall l, detect_objects image_path confidence_threshold = Value l ->
     NoDup l /\ forall x, x ∈ l <-> detected_in model results x) /\
  ((forall r, r ∈ results -> boxes r = None \/ boxes r = Some []) ->
     detect_objects image_path confidence_threshold = Value [] /\
     forall prog rest,
       ultralytics_installed = true ->
       path_exists image_path = true ->
       match rest with
       | [] => True
       | c :: _ => py_float c = Some confidence_threshold
       end ->
       (rest = [] -> confidence_threshold = 0.25%float) ->
       main (prog :: image_path :: rest) =
         {| stdout := [JObj [("objects", JArr [])]]; exit := Exited 0 |}).
Proof.
  intros Hload Hpred. split.
  - intros l. unfold detect_objects. rewrite Hload, Hpred.
    destruct (add_results model results ∅) as [e|s] eqn:Hs; [discriminate|].
    intros [= <-]. split.
    + rewrite (list_of_set_perm s). apply NoDup_elements.
    + intros x. rewrite (list_of_set_perm s), elem_of_elements.
      rewrite (add_results_spec _ _ _ _ Hs x). split; [|now right].
      intros [Hx|Hx]; [|exact Hx]. now apply not_elem_of_empty in Hx.
  - intros Hnone.
    assert (detect_objects image_path confidence_threshold = Value []) as Hd.
    { unfold detect_objects. rewrite Hload, Hpred.
      rewrite (add_results_no_boxes _ _ _ Hnone). f_equal.
      apply Permutation_nil_r. rewrite (list_of_set_perm ∅).
      now rewrite elements_empty. }
    split; [exact Hd|].
    intros prog rest Hinst Hpath Hconf Hdefault. unfold main. rewrite Hinst. simpl.
    destruct rest as [|c rest'].
    + rewrite <- (Hdefault eq_refl), Hpath. simpl. now rewrite Hd.
    + rewrite Hconf, Hpath. simpl. now rewrite Hd.
Qed.

End Facts.

(** Three boxes of two classes, and an image without boxes. *)
Lemma detect_objects_distinct_lowercased_names_witness :
  @detect_objects Ref.detect_world "street.jpg" 0.25 = Value ["dog"; "person"] /\
  @main Ref.detect_world ["detect.py"; "empty.jpg"] =
    {| stdout := [JObj [("objects", JArr [])]]; exit := Exited 0 |}.
Proof.
  split; [vm_compute; reflexivity|].
  edestruct (@detect_objects_distinct_lowercased_names Ref.detect_world
               "empty.jpg" 0.25%float tt) as [_ H];
    [reflexivity|reflexivity|].
  apply H; try reflexivity.
  intros r Hr. apply list_elem_of_singleton in Hr as ->. now right.
Defined.

End DetectFacts.

(** ** [ocr.py] *)
Module OcrFacts.
Import Json Proc Ocr Spec.

Lemma truthy_nonempty (s : string) : PyStr.truthy s = true -> s <> ""%string.
Proof. now destruct s. Qed.

(** With [text1] bound, the sparse block collects as the specification
    says. *)
Lemma after_sparse_collect (o1 : string) (out2 : string + string) :
  let st := after_block (inr o1) in
  after_sparse (fst st) (snd st) out2 = collect (snd st) out2.
Proof.
  simpl. destruct out2 as [e|o2]; simpl; [reflexivity|].
  destruct (PyStr.truthy (PyStr.strip o2)) eqn:T2; simpl; [|reflexivity].
  destruct (PyStr.truthy (PyStr.strip o1)) eqn:T1.
  - destruct (String.eqb_spec (PyStr.strip o2) (PyStr.strip o1)) as [E|E]; simpl.
    + rewrite bool_decide_eq_true_2; [reflexivity|].
      rewrite E. apply list_elem_of_singleton. reflexivity.
    + rewrite bool_decide_eq_false_2; [reflexivity|].
      now rewrite list_elem_of_singleton.
  - rewrite bool_decide_eq_false_2 by apply not_elem_of_nil.
    destruct (String.eqb_spec (PyStr.strip o2) (PyStr.strip o1)) as [E|E];
      [|reflexivity].
    rewrite E in T2. congruence.
Qed.

(** The loop with the set [seen] keeps the tokens the specification keeps,
    when [seen] holds the lowercase forms of the earlier tokens. *)
Lemma unique_from_dedup_tokens (words earlier : list string) (seen : gset string) :
  (forall x, x ∈ seen <-> exists v, v ∈ earlier /\ PyStr.lower v = x) ->
  unique_from seen words = dedup_tokens earlier words.
Proof.
  revert earlier seen. induction words as [|w words IH]; intros earlier seen Hseen;
    simpl; [reflexivity|].
  destruct (existsb _ earlier) eqn:Hex.
  - rewrite bool_decide_eq_true_2; [now apply IH|].
    apply Hseen. apply existsb_exists in Hex as (v & Hv & Heq).
    exists v. split; [now apply list_elem_of_In|].
    now apply String.eqb_eq in Heq.
  - rewrite bool_decide_eq_false_2.
    + f_equal. apply IH. intros x.
      rewrite elem_of_union, elem_of_singleton, Hseen. split.
      * intros [->|(v & Hv & <-)].
        -- exists w. split; [apply elem_of_app; right; now apply list_elem_of_singleton|reflexivity].
        -- exists v. split; [apply elem_of_app; now left|reflexivity].
      * intros (v & Hv & <-). apply elem_of_app in Hv as [Hv|Hv].
        -- right. now exists v.
        -- left. apply list_elem_of_singleton in Hv. now subst.
    + intros Hin. apply Hseen in Hin as (v & Hv & Heq).
      assert (existsb (fun v => String.eqb (PyStr.lower v) (PyStr.lower w)) earlier
              = true) as Hex'; [|congruence].
      apply existsb_exists. exists v.
      split; [now apply list_elem_of_In|now apply String.eqb_eq].
Qed.

(** With [text1] bound, the three blocks collect as the specification
    says. *)
Lemma blocks_collect (o1 : string) (out2 out3 : string + string) :
  let st := after_block (inr o1) in
  after_default (after_sparse (fst st) (snd st) out2) out3 =
  fold_left collect [inr o1; out2; out3] [].
Proof.
  intros st. unfold st. rewrite after_sparse_collect. simpl fold_left.
  assert (snd (after_block (inr o1)) = collect [] (inr o1)) as ->; [|reflexivity].
  unfold after_block, collect. simpl.
  now destruct (PyStr.truthy (PyStr.strip o1)).
Qed.

Section Facts.
Context `{W : World}.

(** When the block pass returns, [read_text] is the merge the
    specification describes: empty and repeated passes are dropped, the
    others are joined in the order block, sparse, default, and the tokens
    are deduplicated up to case. *)
Lemma read_text_merges_when_block_pass_returns
    (image_path : string) (img : image) (o1 : string) :
  tesseract_available = true ->
  image_open image_path = inr img ->
  image_to_string img Psm6 = inr o1 ->
  read_text image_path =
    Value (merged_text [inr o1; image_to_string img Psm11;
                        image_to_string img PsmDefault]).
Proof.
  intros Hav Hopen H1. unfold read_text. rewrite Hav, Hopen. simpl.
  rewrite H1.
  pose proof (blocks_collect o1 (image_to_string img Psm11)
                (image_to_string img PsmDefault)) as Hc.
  cbv zeta in Hc.
  destruct (after_block (inr o1)) as [text1 texts]. cbn [fst snd] in Hc.
  unfold merged_text. rewrite <- Hc.
  destruct (after_default _ _) as [|t ts]; [reflexivity|].
  f_equal. f_equal. apply unique_from_dedup_tokens.
  intros x. split.
  - intros Hx. now apply not_elem_of_empty in Hx.
  - intros (v & Hv & _). now apply not_elem_of_nil in Hv.
Qed.

End Facts.

(** The example of the specification. *)
Example read_text_acme :
  @read_text Ref.acme_world "label.png" = Value "Acme Soda 12oz can"%string.
Proof.
  rewrite (@read_text_merges_when_block_pass_returns Ref.acme_world
             "label.png" tt "Acme Soda 12oz "%string eq_refl eq_refl eq_refl).
  vm_compute. reflexivity.
Qed.

(** C5 at an input where the code departs from it: the block pass raises,
    the sparse pass reads "Acme" and the default pass reads nothing. The
    sparse output is neither empty nor a repetition, so the merge of the
    specification is "Acme"; [read_text] returns the empty string. *)
Theorem read_text_loses_sparse_pass_when_block_pass_raises :
  @image_to_string Ref.block_fails_world tt Psm6 = inl "TesseractError"%string /\
  @image_to_string Ref.block_fails_world tt Psm11 = inr "Acme"%string /\
  @read_text Ref.block_fails_world "label.png" = Value ""%string /\
  merged_text [inl "TesseractError"; inr "Acme"; inr ""]%string = "Acme"%string.
Proof. repeat split; vm_compute; reflexivity. Qed.

End OcrFacts.

(** ** The error paths of the three command lines *)
Module CommandLineFacts.
Import Json Proc Spec.

(** C4 at an input where it fails: called without a command, the similarity
    tool prints two lines, the usage and the list of commands. *)
Lemma clip_usage_prints_two_lines :
  fst (@Clip.main Ref.clip_world ["clip_similarity.py"]) =
    fail_with
      ["Usage: python clip_similarity.py <command> [args...]";
       "Commands: embed <image_path> | similarity <ref_path> <frame_path> | compare <frame_path> <embedding_json>"]
  /\ length (stdout (fst (@Clip.main Ref.clip_world ["clip_similarity.py"]))) = 2.
Proof. split; reflexivity. Qed.

(** C4, amended: whenever a tool ends through [sys.exit] with a nonzero
    code, the code is 1 and every line it printed is an error object; the
    line is alone, except for the two lines of the similarity tool called
    without a command. The detection and the OCR tool print exactly one
    line and never an error object when they end with code 0. *)
Theorem handled_errors_exit_one_with_error_lines :
  (forall (W : Clip.World) (argv : list string),
     let r := fst (Clip.main argv) in
     exits_with_error_lines r /\
     (forall c, exit r = Exited c -> c <> 0%Z ->
        length (stdout r) = 1 \/
        (Clip.deps_installed = true /\ length argv < 2 /\ length (stdout r) = 2))) /\
  (forall (W : Detect.World) (argv : list string),
     let r := Detect.main argv in
     exits_with_error_lines r /\
     (forall c, exit r = Exited c -> c <> 0%Z -> length (stdout r) = 1) /\
     success_prints_one_value r) /\
  (forall (W : Ocr.World) (argv : list string),
     let r := Ocr.main argv in
     exits_with_error_lines r /\
     (forall c, exit r = Exited c -> c <> 0%Z -> length (stdout r) = 1) /\
     success_prints_one_value r).
Proof.
  unfold exits_with_error_lines, success_prints_one_value.
  split; [|split].
  - intros W argv. unfold Clip.main.
    destruct Clip.deps_installed eqn:Hdeps; simpl.
    all: split; split_run; simpl; intros c [= <-] Hc; try congruence;
      try (split; [reflexivity|repeat constructor]);
      try (left; reflexivity);
      (right; split; [reflexivity|split; [lia|reflexivity]]).
  - intros W argv. unfold Detect.main.
    split; [|split]; split_run; simpl;
      try (intros c [= <-] Hc; try congruence;
           try (split; [reflexivity|repeat constructor]); reflexivity);
      try discriminate.
    all: intros _; eexists; split; reflexivity.
  - intros W argv. unfold Ocr.main.
    split; [|split]; split_run; simpl;
      try (intros c [= <-] Hc; try congruence;
           try (split; [reflexivity|repeat constructor]); reflexivity);
      try discriminate.
    all: intros _; eexists; split; reflexivity.
Qed.

(** The [embed] command without its argument. *)
Lemma handled_errors_exit_one_with_error_lines_witness :
  exit (fst (@Clip.main Ref.clip_world ["clip_similarity.py"; "embed"]))
    = Exited 1 /\
  length (stdout (fst (@Clip.main Ref.clip_world ["clip_similarity.py"; "embed"])))
    = 1 /\
  Forall (fun j => is_error_dict j = true)
    (stdout (fst (@Clip.main Ref.clip_world ["clip_similarity.py"; "embed"]))).
Proof.
  destruct handled_errors_exit_one_with_error_lines as (Hclip & _ & _).
  destruct (Hclip Ref.clip_world ["clip_similarity.py"; "embed"]%string)
    as (Herr & _).
  split; [reflexivity|]. split; [reflexivity|].
  apply (Herr 1%Z); [reflexivity|discriminate].
Defined.

(** What the amended statement leaves open: the similarity tool prints
    the error object a function returned and ends with code 0, where the
    detection and the OCR tool end with code 1. *)
Example clip_function_error_exits_zero :
  fst (@Clip.main Ref.clip_world ["clip_similarity.py"; "embed"; "corrupt.jpg"]) =
    {| stdout := [error_dict "Failed to embed image: cannot identify image file"];
       exit := Exited 0 |}.
Proof. reflexivity. Qed.

End CommandLineFacts.

(** ** [clip_similarity.py]: the cache, the load failures, the scores *)
Module ClipMore.
Import Json Proc Clip Spec Props PyFloatFacts JsonFacts ClipFacts.
Local Open Scope float_scope.

Section Facts.
Context `{W : World}.

Lemma loads_log (c : ext_call) (p : proc) :
  loads (log c p) = (if is_load c then S (loads p) else loads p).
Proof. destruct c; reflexivity. Qed.

(** With a cached model [embed_image] keeps the cache and loads nothing. *)
Lemma embed_image_keeps_cache (path : string) (p : proc) (h : clip_model) :
  model_cache p = Some h ->
  model_cache (snd (embed_image path p)) = Some h /\
  loads (snd (embed_image path p)) = loads p.
Proof.
  intros Hc. unfold embed_image, bind, tell, ret.
  rewrite (get_model_cached _ _ Hc). simpl.
  destruct (encode_image h path); simpl; now rewrite ?loads_log.
Qed.

(** Once a model is cached, no function of the script loads again or
    drops the cache. *)
Theorem cached_model_survives_every_function
    (p : proc) (h : clip_model) (a b : string) (l : json) :
  model_cache p = Some h ->
  let kept (q : proc) := model_cache q = Some h /\ loads q = loads p in
  kept (snd (get_model p)) /\
  kept (snd (embed_image a p)) /\
  kept (snd (embed_reference a p)) /\
  kept (snd (compute_similarity a b p)) /\
  kept (snd (compare_with_embedding a l p)).
Proof.
  intros Hc kept. unfold kept.
  pose proof (embed_image_keeps_cache a p h Hc) as [Ha1 Ha2].
  split; [now rewrite (get_model_cached _ _ Hc)|].
  split; [now split|]. split; [|split].
  - unfold embed_reference, bind, ret.
    destruct (embed_image a p) as [[t|m] q]; now split.
  - unfold compute_similarity, bind, tell, ret.
    destruct (embed_image a p) as [ra q] eqn:Ea. simpl in Ha1, Ha2.
    pose proof (embed_image_keeps_cache b q h Ha1) as [Hb1 Hb2].
    destruct (embed_image b q) as [rb q2]. simpl in Hb1, Hb2.
    destruct ra as [e1|m1], rb as [e2|m2]; simpl;
      try (split; congruence).
    destruct (cosine_similarity e1 e2); simpl; rewrite ?loads_log; simpl;
      split; congruence.
  - unfold compare_with_embedding, bind, tell, ret.
    rewrite (get_model_cached _ _ Hc). simpl.
    destruct (torch_tensor l) as [e|t]; simpl; [now split|].
    destruct (embed_image a p) as [[f|m] q]; simpl in *; [|now split].
    destruct (cosine_similarity t f); simpl; rewrite ?loads_log; simpl;
      now split.
Qed.

Lemma get_model_load_failure (p : proc) (e : string) :
  model_cache p = None -> clip_load (loads p) = inl e ->
  get_model p = (ErrorDict ("Failed to load CLIP model: " ++ e)%string,
                 log ClipLoad p).
Proof.
  intros Hc He. unfold get_model, load_clip_model. now rewrite Hc, He.
Qed.

Lemma embed_image_load_failure (p : proc) (e : string) (path : string) :
  model_cache p = None -> clip_load (loads p) = inl e ->
  embed_image path p =
    (ErrorDict ("Failed to embed image: " ++ unpack_error)%string,
     log ClipLoad p).
Proof.
  intros Hc He. unfold embed_image, bind, ret.
  now rewrite (get_model_load_failure _ _ Hc He).
Qed.

(** When the load fails, [get_model] reports the reason, but its callers
    fail while unpacking the error dict: they report the unpack error, the
    reason is lost, no image is encoded and the cache stays empty. *)
Theorem load_failure_reason_is_lost
    (p : proc) (e : string) (path : string) (l : json) :
  model_cache p = None ->
  clip_load (loads p) = inl e ->
  get_model p = (ErrorDict ("Failed to load CLIP model: " ++ e)%string,
                 log ClipLoad p) /\
  embed_image path p =
    (ErrorDict ("Failed to embed image: " ++ unpack_error)%string,
     log ClipLoad p) /\
  compare_with_embedding path l p =
    (ErrorDict ("Failed to compare with embedding: " ++ unpack_error)%string,
     log ClipLoad p) /\
  model_cache (log ClipLoad p) = None.
Proof.
  intros Hc He.
  pose proof (get_model_load_failure _ _ Hc He) as Hg.
  split; [exact Hg|].
  split; [|split]; [| |exact Hc].
  - now apply embed_image_load_failure with (e := e).
  - unfold compare_with_embedding, bind, ret. now rewrite Hg.
Qed.

(** [compute_similarity] embeds both images before it looks at either
    result: when the reference fails, the frame is embedded all the same
    and the error returned is the one of the reference. With a load that
    fails at the first attempt this makes two load attempts. *)
Theorem compute_similarity_embeds_both_first
    (ref frame : string) (p p1 : proc) (e : string) :
  embed_image ref p = (ErrorDict e, p1) ->
  compute_similarity ref frame p = (ErrorDict e, snd (embed_image frame p1)) /\
  (model_cache p = None ->
   (exists msg, clip_load (loads p) = inl msg) ->
   loads (snd (compute_similarity ref frame p)) = S (S (loads p))).
Proof.
  intros Er.
  assert (compute_similarity ref frame p
          = (ErrorDict e, snd (embed_image frame p1))) as Hcs.
  { unfold compute_similarity, bind, ret. rewrite Er.
    destruct (embed_image frame p1) as [[f|m] q]; reflexivity. }
  split; [exact Hcs|].
  intros Hc [msg Hl]. rewrite Hcs. simpl.
  rewrite (embed_image_load_failure p msg ref Hc Hl) in Er.
  injection Er as _ <-.
  unfold embed_image, bind, tell, ret, get_model, load_clip_model.
  rewrite log_cache, Hc, loads_log. simpl.
  destruct (clip_load (S (loads p))) as [m2|h]; simpl.
  - now rewrite loads_log.
  - destruct (encode_image h frame); simpl; now rewrite !loads_log.
Qed.

(** The scores are monotone: of two results, the one with the larger
    similarity is a match when the other is, and its confidence label is at
    least as strong. *)
Theorem larger_similarity_scores_no_lower
    (a b a' b' : string) (l l' : json) (p p1 q q1 : proc)
    (r r' : similarity_result) :
  compute_similarity a b p = (Value r, p1) \/
  compare_with_embedding a l p = (Value r, p1) ->
  compute_similarity a' b' q = (Value r', q1) \/
  compare_with_embedding a' l' q = (Value r', q1) ->
  (similarity r <=? similarity r') = true ->
  (matched r = true -> matched r' = true) /\
  rank (confidence r) <= rank (confidence r').
Proof.
  intros H H' Hle.
  assert (forall x y (u u1 : proc) (k : json) (t : similarity_result),
            compute_similarity x y u = (Value t, u1) \/
            compare_with_embedding x k u = (Value t, u1) ->
            exists c, t = result_dict c) as Hform.
  { intros x y u u1 k t [Ht|Ht].
    - apply compute_similarity_value in Ht
        as (_ & _ & c & _ & _ & _ & _ & _ & -> & _). now eexists.
    - apply compare_with_embedding_value in Ht
        as (_ & _ & _ & c & _ & _ & _ & _ & _ & -> & _). now eexists. }
  destruct (Hform _ _ _ _ _ _ H) as [s ->].
  destruct (Hform _ _ _ _ _ _ H') as [s' ->].
  simpl in Hle. unfold result_dict, PyFloat.ge; simpl.
  assert (forall t, (t <=? s) = true -> (t <=? s') = true) as Hup
    by (intros t Ht; now apply (leb_trans t s s')).
  pose proof (Hup 0.45) as H45. pose proof (Hup 0.35) as H35.
  pose proof (Hup 0.30) as H30.
  assert ((0.45 <=? s') = true -> (0.35 <=? s') = true) as T1
    by (apply leb_trans; reflexivity).
  assert ((0.35 <=? s') = true -> (0.30 <=? s') = true) as T2
    by (apply leb_trans; reflexivity).
  split; [exact H30|].
  destruct (0.45 <=? s), (0.35 <=? s), (0.30 <=? s);
    destruct (0.45 <=? s'), (0.35 <=? s'), (0.30 <=? s');
    cbn; try lia;
    try discriminate (H45 eq_refl); try discriminate (H35 eq_refl);
    try discriminate (H30 eq_refl); try discriminate (T1 eq_refl);
    try discriminate (T2 eq_refl).
Qed.

End Facts.

(** The cache of the concrete world after one call. *)
Lemma cached_model_survives_every_function_witness :
  model_cache (snd (@get_model Ref.clip_world init)) = Some tt /\
  loads (snd (@compute_similarity Ref.clip_world "ref.jpg" "frame.jpg"
                (snd (@get_model Ref.clip_world init)))) = 1%nat.
Proof.
  split; [reflexivity|].
  destruct (@cached_model_survives_every_function Ref.clip_world
              (snd (@get_model Ref.clip_world init)) tt
              "ref.jpg" "frame.jpg" JNull eq_refl)
    as (_ & _ & _ & [_ H] & _).
  exact H.
Defined.

(** A machine without the checkpoint. *)
Lemma load_failure_reason_is_lost_witness :
  @clip_load Worlds.no_model_world 0 = inl "ViT-B/32 checkpoint not found"%string /\
  fst (@embed_image Worlds.no_model_world "ref.jpg" init) =
    ErrorDict "Failed to embed image: not enough values to unpack (expected 3, got 1)".
Proof.
  split; [reflexivity|].
  destruct (@load_failure_reason_is_lost Worlds.no_model_world init
              "ViT-B/32 checkpoint not found" "ref.jpg" JNull eq_refl eq_refl)
    as (_ & H & _).
  now rewrite H.
Defined.

(** The same machine: two load attempts for one call. *)
Lemma compute_similarity_embeds_both_first_witness :
  exists e p1,
    @embed_image Worlds.no_model_world "ref.jpg" init = (ErrorDict e, p1) /\
    calls (snd (@compute_similarity Worlds.no_model_world
                  "ref.jpg" "frame.jpg" init)) = [ClipLoad; ClipLoad].
Proof.
  do 2 eexists. split; [reflexivity|].
  destruct (@compute_similarity_embeds_both_first Worlds.no_model_world
              "ref.jpg" "frame.jpg" init _ _ eq_refl) as [H _].
  now rewrite H.
Defined.

(** A cosine of 0.6 against a negative one. *)
Lemma larger_similarity_scores_no_lower_witness :
  exists r r' p1 q1,
    @compute_similarity Ref.clip_world "ref.jpg" "other.jpg" init = (Value r, p1) /\
    @compute_similarity Ref.clip_world "ref.jpg" "frame.jpg" init = (Value r', q1) /\
    (similarity r <=? similarity r') = true /\
    rank (confidence r) <= rank (confidence r').
Proof.
  do 4 eexists. split; [reflexivity|]. split; [reflexivity|].
  split; [reflexivity|].
  eapply (@larger_similarity_scores_no_lower Ref.clip_world
            "ref.jpg" "other.jpg" "ref.jpg" "frame.jpg" JNull JNull init _ init _).
  - left. reflexivity.
  - left. reflexivity.
  - reflexivity.
Defined.

End ClipMore.

(** ** Python strings: case and containment *)
Module PyStrFacts.
Import PyStr.

Lemma lower_char_idem (c : ascii) : lower_char (lower_char c) = lower_char c.
Proof. destruct c as [[] [] [] [] [] [] [] []]; reflexivity. Qed.

Lemma lower_idem (s : string) : lower (lower s) = lower s.
Proof.
  induction s as [|c s IH]; simpl; [reflexivity|].
  now rewrite lower_char_idem, IH.
Qed.

Lemma prefix_refl (s : string) : String.prefix s s = true.
Proof.
  induction s as [|c s IH]; simpl; [reflexivity|].
  destruct (Ascii.ascii_dec c c); [exact IH|congruence].
Qed.

Lemma contains_unfold (sub s : string) :
  contains sub s =
  String.prefix sub s ||
  match s with
  | EmptyString => false
  | String _ r => contains sub r
  end.
Proof. destruct s; reflexivity. Qed.

Lemma contains_refl (s : string) : contains s s = true.
Proof. rewrite contains_unfold. now rewrite prefix_refl. Qed.

(** A string contains each of its suffixes. *)
Lemma contains_suffix (pre s : string) : contains s (pre ++ s) = true.
Proof.
  induction pre as [|c pre IH]; [apply contains_refl|].
  change (contains s (String c (pre ++ s)) = true).
  rewrite contains_unfold. cbv beta iota.
  rewrite IH. apply orb_true_r.
Qed.

End PyStrFacts.

(** ** [clip_similarity.py]: more on the command line *)
Module ClipMainMore.
Import Json Proc Clip Props PyStrFacts JsonFacts ClipFacts.

Section Facts.
Context `{W : World}.

Lemma get_model_init_logs : calls (snd (get_model init)) = [ClipLoad].
Proof.
  unfold get_model, load_clip_model. simpl.
  now destruct (clip_load (loads init)).
Qed.

(** Every function called by [main] leaves a trace in a fresh process. *)
Lemma functions_leave_a_trace (a b : string) (l : json) :
  calls (snd (embed_reference a init)) <> [] /\
  calls (snd (compute_similarity a b init)) <> [] /\
  calls (snd (compare_with_embedding a l init)) <> [].
Proof.
  pose proof get_model_init_logs as Hg.
  assert (forall x, calls (snd (embed_image x init)) <> []) as He.
  { intros x. unfold embed_image, bind, tell, ret.
    destruct (get_model init) as [[h|m] q]; simpl in *.
    - destruct (encode_image h x); simpl; discriminate.
    - rewrite Hg. discriminate. }
  assert (forall x q, calls q <> [] -> calls (snd (embed_image x q)) <> [])
    as Hgrow.
  { intros x q Hq. unfold embed_image, bind, tell, ret, get_model,
      load_clip_model.
    destruct (model_cache q); simpl.
    - destruct (encode_image _ x); simpl; discriminate.
    - destruct (clip_load (loads q)); simpl; [discriminate|].
      destruct (encode_image _ x); simpl; discriminate. }
  split; [|split].
  - unfold embed_reference, bind, ret. specialize (He a).
    destruct (embed_image a init) as [[t|m] q]; exact He.
  - unfold compute_similarity, bind, tell, ret. specialize (He a).
    destruct (embed_image a init) as [ra q]. simpl in He.
    specialize (Hgrow b q He).
    destruct (embed_image b q) as [rb q2]. simpl in Hgrow.
    destruct ra, rb; simpl; try exact Hgrow.
    destruct (cosine_similarity _ _); simpl; discriminate.
  - unfold compare_with_embedding, bind, tell, ret.
    destruct (get_model init) as [[h|m] q] eqn:Eg; simpl in Hg;
      [|simpl; rewrite Hg; discriminate].
    destruct (torch_tensor l); simpl; [rewrite Hg; discriminate|].
    assert (calls q <> []) as Hq by (rewrite Hg; discriminate).
    specialize (Hgrow a q Hq).
    destruct (embed_image a q) as [[f|m] q2]; simpl in *; [|exact Hgrow].
    destruct (cosine_similarity _ _); simpl; discriminate.
Qed.

(** The exit code tells whether a model function ran: [main] ends with
    code 0 exactly when it called one (the log is not empty), and it then
    printed exactly one line; on every other end of the run no model was
    loaded, no image encoded and nothing compared. *)
Theorem exit_zero_iff_function_called (argv : list string) :
  (exit (fst (main argv)) = Exited 0 <-> calls (snd (main argv)) <> []) /\
  (exit (fst (main argv)) = Exited 0 -> length (stdout (fst (main argv))) = 1) /\
  (exit (fst (main argv)) <> Exited 0 -> snd (main argv) = init).
Proof.
  unfold main.
  destruct (negb deps_installed); [simpl; repeat split; congruence|].
  destruct argv as [|prog [|command args]];
    try (simpl; repeat split; congruence).
  destruct (String.eqb (PyStr.lower command) "embed").
  { destruct args as [|a ?]; [simpl; repeat split; congruence|].
    destruct (negb (path_exists a)); [simpl; repeat split; congruence|].
    destruct (functions_leave_a_trace a a JNull) as (H & _ & _).
    destruct (embed_reference a init); simpl in *. repeat split; congruence. }
  destruct (String.eqb (PyStr.lower command) "similarity").
  { destruct args as [|a [|b ?]]; try (simpl; repeat split; congruence).
    destruct (negb (path_exists a)); [simpl; repeat split; congruence|].
    destruct (negb (path_exists b)); [simpl; repeat split; congruence|].
    destruct (functions_leave_a_trace a b JNull) as (_ & H & _).
    destruct (compute_similarity a b init); simpl in *.
    repeat split; congruence. }
  destruct (String.eqb (PyStr.lower command) "compare");
    [|simpl; repeat split; congruence].
  destruct args as [|a [|b ?]]; try (simpl; repeat split; congruence).
  destruct (negb (path_exists a)); [simpl; repeat split; congruence|].
  destruct (negb (path_exists b)); [simpl; repeat split; congruence|].
  destruct (read_json b) as [e|d]; [simpl; repeat split; congruence|].
  destruct (embedding_in d) as [e|[|]]; try (simpl; repeat split; congruence).
  destruct (embedding_of d) as [e|emb]; [simpl; repeat split; congruence|].
  destruct (functions_leave_a_trace a a emb) as (_ & _ & H).
  destruct (compare_with_embedding a emb init); simpl in *.
  repeat split; congruence.
Qed.

(** Neither the name of the program nor the case of the command matters. *)
Theorem command_is_case_insensitive
    (prog prog' command : string) (args : list string) :
  main (prog :: command :: args) = main (prog' :: PyStr.lower command :: args).
Proof. unfold main. now rewrite lower_idem. Qed.

(** A frame compared with the normalised embedding of a reference gives
    what the direct comparison of the two images gives. *)
Lemma compare_reuses_embedding
    (ref frame : string) (p1 p1' p2 p2' p3 : proc) (h : clip_model)
    (e1 : list float) (r : similarity_result) :
  serves p1 h -> serves p2 h -> serves p3 h ->
  embed_image ref p1 = (Value e1, p1') ->
  compute_similarity ref frame p2 = (Value r, p2') ->
  exists p3', compare_with_embedding frame (float_list e1) p3 = (Value r, p3').
Proof.
  intros S1 S2 S3 Er Hr.
  destruct (embed_image_raw _ _ _ _ _ Er S1) as (raw & Hraw & ->).
  apply compute_similarity_value in Hr
    as (e1 & e2 & c & q1 & q2 & E1 & E2 & Hc & -> & _).
  destruct (embed_image_raw _ _ _ _ _ E1 S2) as (raw' & Hraw' & ->).
  assert (raw' = raw) as -> by congruence.
  pose proof (serves_cached _ _ (embed_image_cache _ _ _ _ _ E1 S2)) as Sq1.
  destruct (embed_image_raw _ _ _ _ _ E2 Sq1) as (rawf & Hrawf & ->).
  eexists. apply compare_with_embedding_value.
  eexists h, (l2_normalize raw), (l2_normalize rawf), c, _.
  split; [exact S3|]. split; [apply torch_tensor_float_list|].
  split; [apply (embed_image_with _ _ h);
          [apply serves_cached, serves_after, S3|exact Hrawf]|].
  split; [exact Hc|]. split; reflexivity.
Qed.

(** The line that [embed] prints is a valid embedding file, and [compare]
    run on a file that holds it prints the very line that [similarity]
    prints for the two images. *)
Theorem embed_output_feeds_compare
    (prog : string) (ref frame file : string)
    (er : reference_embedding) (r : similarity_result) (p1 p2 : proc) :
  deps_installed = true ->
  path_exists ref = true -> path_exists frame = true ->
  path_exists file = true ->
  embed_reference ref init = (Value er, p1) ->
  compute_similarity ref frame init = (Value r, p2) ->
  read_json file = inr (json_of_reference er) ->
  fst (main [prog; "embed"; ref]) =
    {| stdout := [json_of_reference er]; exit := Exited 0 |} /\
  fst (main [prog; "similarity"; ref; frame]) =
    {| stdout := [json_of_similarity r]; exit := Exited 0 |} /\
  fst (main [prog; "compare"; frame; file]) =
    {| stdout := [json_of_similarity r]; exit := Exited 0 |}.
Proof.
  intros Hdeps Href Hframe Hfile Hemb Hsim Hread.
  unfold main. rewrite Hdeps. simpl.
  rewrite Href, Hframe, Hfile. simpl. rewrite Hemb, Hsim, Hread. simpl.
  split; [reflexivity|]. split; [reflexivity|].
  apply embed_reference_value in Hemb as [Hemb _].
  destruct (embed_image_serves _ _ _ _ Hemb) as [h Hs].
  destruct (compare_reuses_embedding ref frame init p1 init p2 init h
              (embedding er) r Hs Hs Hs Hemb Hsim) as [p3 Hcmp].
  change (dict_get "embedding" _) with (Some (float_list (embedding er))).
  cbv beta iota. now rewrite Hcmp.
Qed.

(** A missing input file is reported before any model is loaded: one
    error line that quotes the path, exit code 1, the process state
    untouched; the first file of the command line is checked first. *)
Theorem missing_file_is_reported
    (prog path other : string) (rest : list string) :
  deps_installed = true ->
  path_exists path = false ->
  let missing (argv : list string) :=
    reports_missing path (fst (main argv)) /\ snd (main argv) = init in
  missing (prog :: "embed"%string :: path :: rest) /\
  missing (prog :: "similarity"%string :: path :: other :: rest) /\
  missing (prog :: "compare"%string :: path :: other :: rest) /\
  (path_exists other = true ->
   missing (prog :: "similarity"%string :: other :: path :: rest) /\
   missing (prog :: "compare"%string :: other :: path :: rest)).
Proof.
  intros Hdeps Hpath missing.
  assert (forall pre, exists msg,
            [error_dict (pre ++ path)%string] = [error_dict msg] /\
            PyStr.contains path msg = true) as Hmsg.
  { intros pre. eexists. split; [reflexivity|apply contains_suffix]. }
  unfold missing, reports_missing, main. rewrite Hdeps. simpl.
  rewrite Hpath. simpl.
  split; [repeat split; apply Hmsg|].
  split; [repeat split; apply Hmsg|].
  split; [repeat split; apply Hmsg|].
  intros Hother. rewrite Hother. simpl.
  split; repeat split; apply Hmsg.
Qed.



End Facts.

(** A file that holds the line printed for the reference image. *)
Lemma embed_output_feeds_compare_witness :
  @read_json Worlds.round_trip_world "ref.json" =
    inr (json_of_reference
           (match fst (@embed_reference Worlds.round_trip_world "ref.jpg" init) with
            | Value er => er
            | ErrorDict _ => {| embedding := []; dimension := 0 |}
            end)) /\
  stdout (fst (@main Worlds.round_trip_world
                 ["clip_similarity.py"; "compare"; "frame.jpg"; "ref.json"])) =
  stdout (fst (@main Worlds.round_trip_world
                 ["clip_similarity.py"; "similarity"; "ref.jpg"; "frame.jpg"])).
Proof.
  split; [reflexivity|].
  edestruct (@embed_output_feeds_compare Worlds.round_trip_world
               "clip_similarity.py" "ref.jpg" "frame.jpg" "ref.json")
    as (_ & H2 & H3); [reflexivity .. |].
  rewrite H2, H3. reflexivity.
Defined.

(** A path that is not in the file system. *)
Lemma missing_file_is_reported_witness :
  @path_exists Ref.clip_world "nowhere.jpg" = false /\
  reports_missing "nowhere.jpg"
    (fst (@main Ref.clip_world ["clip_similarity.py"; "embed"; "nowhere.jpg"])).
Proof.
  split; [reflexivity|].
  destruct (@missing_file_is_reported Ref.clip_world
              "clip_similarity.py" "nowhere.jpg" "frame.jpg" []
              eq_refl eq_refl) as ([H _] & _).
  exact H.
Defined.


End ClipMainMore.

(** ** [detect.py]: failures, order, bounds *)
Module DetectMore.
Import Json Proc Detect Props PyStrFacts DetectFacts.

Section Facts.
Context `{W : World}.

Lemma add_boxes_total (model : yolo_model) (bs : list box) (s : gset string) :
  (forall b, b ∈ bs -> is_Some (names model !! cls b)) ->
  exists s', add_boxes model bs s = inr s'.
Proof.
  revert s. induction bs as [|b bs IH]; simpl; intros s H; [now eexists|].
  destruct (H b) as [n ->]; [apply elem_of_cons; now left|].
  apply IH. intros b' Hb'. apply H, elem_of_cons. now right.
Qed.

Lemma add_boxes_error (model : yolo_model) (bs : list box) (s : gset string)
    (e : string) :
  add_boxes model bs s = inl e ->
  exists b, b ∈ bs /\ names model !! cls b = None /\ e = pretty (cls b).
Proof.
  revert s. induction bs as [|b bs IH]; simpl; intros s H; [discriminate|].
  destruct (names model !! cls b) as [n|] eqn:Hn.
  - destruct (IH _ H) as (b' & Hb' & Hn' & ->).
    exists b'. split; [apply elem_of_cons; now right|now split].
  - injection H as <-. exists b. split; [apply elem_of_cons; now left|now split].
Qed.

Lemma add_results_total (model : yolo_model) (results : list result)
    (s : gset string) :
  all_named model results -> exists s', add_results model results s = inr s'.
Proof.
  revert s. induction results as [|r results IH]; simpl; intros s H;
    [now eexists|].
  assert (all_named model results) as Hrest.
  { intros r' bs b Hr'. apply H, elem_of_cons. now right. }
  destruct (boxes r) as [bs|] eqn:Hb; [|now apply IH].
  destruct (add_boxes_total model bs s) as [s1 ->]; [|now apply IH].
  intros b Hin. apply (H r bs b); [apply elem_of_cons; now left|exact Hb|exact Hin].
Qed.

Lemma add_results_error (model : yolo_model) (results : list result)
    (s : gset string) (e : string) :
  add_results model results s = inl e -> unnamed_box model results e.
Proof.
  revert s. induction results as [|r results IH]; simpl; intros s H;
    [discriminate|].
  assert (unnamed_box model results e -> unnamed_box model (r :: results) e)
    as Hrest.
  { intros (r' & bs & b & Hr' & Hrest). exists r', bs, b.
    split; [apply elem_of_cons; now right|exact Hrest]. }
  destruct (boxes r) as [bs|] eqn:Hb; [|eapply Hrest, IH, H].
  destruct (add_boxes model bs s) as [e'|s1] eqn:H1; [|eapply Hrest, IH, H].
  injection H as <-. destruct (add_boxes_error _ _ _ _ H1) as (b & Hin & Hn & ->).
  exists r, bs, b. split; [apply elem_of_cons; now left|now repeat split].
Qed.

Lemma add_boxes_ok (model : yolo_model) (bs : list box) (s s' : gset string) :
  add_boxes model bs s = inr s' ->
  forall b, b ∈ bs -> is_Some (names model !! cls b).
Proof.
  revert s. induction bs as [|b0 bs IH]; simpl; intros s H b Hin;
    [now apply elem_of_nil in Hin|].
  destruct (names model !! cls b0) as [n|] eqn:Hn; [|discriminate].
  apply elem_of_cons in Hin as [->|Hin]; [now exists n|].
  now apply (IH _ H).
Qed.

Lemma add_results_ok (model : yolo_model) (results : list result)
    (s s' : gset string) :
  add_results model results s = inr s' -> all_named model results.
Proof.
  revert s. induction results as [|r0 results IH]; simpl; intros s H r bs b Hr Hb Hin;
    [now apply elem_of_nil in Hr|].
  apply elem_of_cons in Hr as [->|Hr].
  - rewrite Hb in H.
    destruct (add_boxes model bs s) as [e|s1] eqn:H1; [discriminate|].
    now apply (add_boxes_ok _ _ _ _ H1).
  - destruct (boxes r0) as [bs0|].
    + destruct (add_boxes model bs0 s); [discriminate|].
      now apply (IH _ H r bs b).
    + now apply (IH _ H r bs b).
Qed.

(** Once the model is loaded and has run, [detect_objects] succeeds
    exactly when every box has a name; one box with a class index outside
    [model.names] turns the whole call into an error whose message is that
    index, and the names found so far are lost. *)
Theorem detect_objects_needs_every_class_named
    (image_path : string) (confidence_threshold : float)
    (model : yolo_model) (results : list result) :
  yolo_load "yolov8n.pt" = inr model ->
  predict model image_path confidence_threshold = inr results ->
  (all_named model results ->
     exists l, detect_objects image_path confidence_threshold = Value l) /\
  (forall e, detect_objects image_path confidence_threshold = ErrorDict e ->
     unnamed_box model results e) /\
  (forall l, detect_objects image_path confidence_threshold = Value l ->
     all_named model results).
Proof.
  intros Hload Hpred. unfold detect_objects. rewrite Hload, Hpred.
  split; [|split].
  - intros H. destruct (add_results_total model results ∅ H) as [s ->].
    now eexists.
  - intros e. destruct (add_results model results ∅) as [e'|s] eqn:Hs;
      [|discriminate].
    intros [= <-]. now apply add_results_error in Hs.
  - intros l Hl.
    destruct (add_results model results ∅) as [e'|s] eqn:Hs; [discriminate|].
    now apply add_results_ok in Hs.
Qed.

Lemma add_boxes_size (model : yolo_model) (bs : list box) (s s' : gset string) :
  add_boxes model bs s = inr s' -> size s' <= size s + length bs.
Proof.
  revert s. induction bs as [|b bs IH]; simpl; intros s H.
  - injection H as <-. lia.
  - destruct (names model !! cls b) as [n|]; [|discriminate].
    apply IH in H. rewrite size_union_alt, size_singleton in H.
    assert (size (s ∖ {[PyStr.lower n]}) <= size s) as Hsub
      by (apply subseteq_size, subseteq_difference_l; reflexivity).
    lia.
Qed.

Lemma add_results_size (model : yolo_model) (results : list result)
    (s s' : gset string) :
  add_results model results s = inr s' -> size s' <= size s + count_boxes results.
Proof.
  revert s. induction results as [|r results IH]; simpl; intros s H.
  - injection H as <-. lia.
  - destruct (boxes r) as [bs|].
    + destruct (add_boxes model bs s) as [e|s1] eqn:H1; [discriminate|].
      apply add_boxes_size in H1. apply IH in H. lia.
    + now apply IH.
Qed.


(** The names returned are in lower case, and there are at most as many
    as the detector returned boxes. *)
Theorem detect_objects_lowercase_and_bounded
    (image_path : string) (confidence_threshold : float)
    (model : yolo_model) (results : list result) (l : list string) :
  yolo_load "yolov8n.pt" = inr model ->
  predict model image_path confidence_threshold = inr results ->
  detect_objects image_path confidence_threshold = Value l ->
  Forall (fun x => PyStr.lower x = x) l /\ length l <= count_boxes results.
Proof.
  intros Hload Hpred. unfold detect_objects. rewrite Hload, Hpred.
  destruct (add_results model results ∅) as [e|s] eqn:Hs; [discriminate|].
  intros [= <-]. split.
  - apply Forall_forall. intros x Hx.
    rewrite (list_of_set_perm s), elem_of_elements in Hx.
    apply (add_results_spec _ _ _ _ Hs x) in Hx as [Hx|Hx];
      [now apply not_elem_of_empty in Hx|].
    destruct Hx as (r & bs & _ & _ & b & n & _ & _ & ->). apply lower_idem.
  - rewrite (list_of_set_perm s). apply add_results_size in Hs.
    rewrite size_empty in Hs. exact Hs.
Qed.


(** The threshold is converted before the image is looked for: an
    argument that is not a number ends the run with an uncaught exception
    and no output, whether the image exists or not; otherwise a missing
    image is reported in one error line that quotes the path. *)
Theorem detect_argument_errors
    (prog path : string) (rest : list string) :
  ultralytics_installed = true ->
  (forall c rest', rest = c :: rest' -> py_float c = None ->
     main (prog :: path :: rest) =
       {| stdout := []; exit := Uncaught "ValueError" |}) /\
  (path_exists path = false ->
   (rest = [] \/ exists c rest' t, rest = c :: rest' /\ py_float c = Some t) ->
   reports_missing path (main (prog :: path :: rest))).
Proof.
  intros Hinst. unfold main, reports_missing. rewrite Hinst. simpl. split.
  - intros c rest' -> Hc. now rewrite Hc.
  - intros Hpath [->|(c & rest' & t & -> & Hc)]; rewrite ?Hc, Hpath; simpl;
      (split; [reflexivity|]); eexists; (split; [reflexivity|]);
      apply contains_suffix.
Qed.

End Facts.

(** A detector that reports class 7, which has no name. *)
Lemma detect_objects_needs_every_class_named_witness :
  @detect_objects Worlds.unknown_class_world "street.jpg" 0.25 = ErrorDict "7" /\
  unnamed_box (W := Worlds.unknown_class_world) tt
    [ {| boxes := Some [ {| cls := 0; conf := 0.9 |};
                         {| cls := 7; conf := 0.8 |} ] |} ] "7".
Proof.
  split; [vm_compute; reflexivity|].
  edestruct (@detect_objects_needs_every_class_named Worlds.unknown_class_world
               "street.jpg" 0.25%float tt) as (_ & H & _);
    [reflexivity|reflexivity|].
  apply H. vm_compute. reflexivity.
Defined.

(** Three boxes, two names. *)
Lemma detect_objects_lowercase_and_bounded_witness :
  exists l,
    @detect_objects Ref.detect_world "street.jpg" 0.25 = Value l /\
    Forall (fun x => PyStr.lower x = x) l /\ length l <= 3.
Proof.
  eexists. split; [vm_compute; reflexivity|].
  edestruct (@detect_objects_lowercase_and_bounded Ref.detect_world
               "street.jpg" 0.25%float tt) as [H1 H2];
    [reflexivity|reflexivity|vm_compute; reflexivity|].
  split; [exact H1|exact H2].
Defined.


(** An argument that [float] rejects. *)
Lemma detect_argument_errors_witness :
  @main Worlds.unknown_class_world ["detect.py"; "nowhere.jpg"; "high"] =
    {| stdout := []; exit := Uncaught "ValueError" |}.
Proof.
  destruct (@detect_argument_errors Worlds.unknown_class_world
              "detect.py" "nowhere.jpg" ["high"%string] eq_refl) as [H _].
  now apply (H "high"%string []).
Defined.

End DetectMore.


(** ** Python strings: stripping and splitting *)
Module PyStrSplitFacts.
Import PyStr Props.
Local Open Scope list_scope.

Lemma split_aux_nil (cur : list ascii) : split_aux cur "" = flush cur.
Proof. reflexivity. Qed.

Lemma split_aux_space (cur : list ascii) (c : ascii) (r : string) :
  is_space c = true -> split_aux cur (String c r) = flush cur ++ split_aux [] r.
Proof. intros H. simpl. now rewrite H. Qed.

Lemma split_aux_char (cur : list ascii) (c : ascii) (r : string) :
  is_space c = false -> split_aux cur (String c r) = split_aux (c :: cur) r.
Proof. intros H. simpl. now rewrite H. Qed.

Lemma lstrip_blank (s : string) : blank s = true -> lstrip s = ""%string.
Proof.
  induction s as [|c s IH]; simpl; [reflexivity|].
  intros H. apply andb_prop in H as [Hc Hs]. rewrite Hc. now apply IH.
Qed.

(** White space strips to nothing. *)
Lemma strip_blank (s : string) : blank s = true -> strip s = ""%string.
Proof. intros H. unfold strip. now rewrite lstrip_blank. Qed.

Lemma spaceless_of_list (l : list ascii) :
  forallb no_space l = true -> spaceless (string_of_list_ascii l) = true.
Proof.
  induction l as [|c l IH]; simpl; [reflexivity|].
  intros H. apply andb_prop in H as [Hc Hl]. unfold no_space in Hc.
  now rewrite Hc, IH.
Qed.

Lemma forallb_rev (f : ascii -> bool) (l : list ascii) :
  forallb f (rev l) = forallb f l.
Proof.
  induction l as [|c l IH]; simpl; [reflexivity|].
  rewrite forallb_app, IH. simpl. rewrite andb_true_r. apply andb_comm.
Qed.

Lemma string_of_list_nonempty (l : list ascii) :
  l <> [] -> string_of_list_ascii l <> ""%string.
Proof. destruct l; [congruence|discriminate]. Qed.

Lemma flush_tokens (cur : list ascii) :
  forallb no_space cur = true -> Forall is_token (flush cur).
Proof.
  intros H. destruct cur as [|c cur]; [constructor|].
  constructor; [|constructor]. split.
  - apply string_of_list_nonempty. simpl. now destruct (rev cur).
  - apply spaceless_of_list. now rewrite forallb_rev.
Qed.

(** Every element of a split is a token. *)
Lemma split_aux_tokens (s : string) (cur : list ascii) :
  forallb no_space cur = true -> Forall is_token (split_aux cur s).
Proof.
  revert cur. induction s as [|c s IH]; intros cur H.
  - rewrite split_aux_nil. now apply flush_tokens.
  - destruct (is_space c) eqn:Hc.
    + rewrite split_aux_space by exact Hc.
      apply Forall_app. split; [now apply flush_tokens|now apply IH].
    + rewrite split_aux_char by exact Hc. apply IH. simpl.
      unfold no_space at 1. now rewrite Hc.
Qed.

Lemma split_tokens (s : string) : Forall is_token (split s).
Proof. now apply split_aux_tokens. Qed.

(** Reading a string without white space only fills the current word. *)
Lemma split_aux_spaceless (w : string) (cur : list ascii) (rest : string) :
  spaceless w = true ->
  split_aux cur (w ++ rest)%string =
  split_aux (rev (list_ascii_of_string w) ++ cur) rest.
Proof.
  revert cur. induction w as [|c w IH]; intros cur H; [reflexivity|].
  simpl in H. apply andb_prop in H as [Hc Hw].
  apply negb_true_iff in Hc.
  change (String c w ++ rest)%string with (String c (w ++ rest)).
  rewrite split_aux_char by exact Hc. rewrite IH by exact Hw.
  simpl. now rewrite <- app_assoc.
Qed.

Lemma flush_token (w : string) :
  is_token w -> flush (rev (list_ascii_of_string w)) = [w].
Proof.
  intros [Hne _]. unfold flush.
  destruct (rev (list_ascii_of_string w)) as [|c l] eqn:Hr.
  - apply (f_equal (@rev ascii)) in Hr. rewrite rev_involutive in Hr.
    simpl in Hr. apply (f_equal string_of_list_ascii) in Hr.
    rewrite string_of_list_ascii_of_string in Hr. now subst.
  - rewrite <- Hr, rev_involutive. now rewrite string_of_list_ascii_of_string.
Qed.

Lemma append_empty_r (s : string) : (s ++ "")%string = s.
Proof.
  induction s as [|c s IH]; [reflexivity|].
  change (String c (s ++ "")%string = String c s). now f_equal.
Qed.

(** Splitting what was joined with single spaces gives the tokens back. *)
Lemma split_join (ws : list string) :
  Forall is_token ws -> split (join " " ws) = ws.
Proof.
  unfold split. induction ws as [|w ws IH]; intros H; [reflexivity|].
  apply Forall_cons in H as [Hw Hws]. pose proof Hw as [_ Hsp].
  destruct ws as [|v ws].
  - simpl. rewrite <- (append_empty_r w) at 1.
    rewrite split_aux_spaceless by exact Hsp.
    rewrite app_nil_r, split_aux_nil. now apply flush_token.
  - change (join " " (w :: v :: ws))
      with (w ++ String " " (join " " (v :: ws)))%string.
    rewrite split_aux_spaceless by exact Hsp.
    rewrite app_nil_r, split_aux_space by reflexivity.
    rewrite (flush_token w Hw), (IH Hws). reflexivity.
Qed.

End PyStrSplitFacts.

(** ** [ocr.py]: what the merged text looks like *)
Module OcrMore.
Import Json Proc Ocr Props PyStrFacts PyStrSplitFacts.
Local Open Scope list_scope.

(** Splitting goes through a separating space. *)
Lemma split_aux_app (a b : string) (cur : list ascii) :
  PyStr.split_aux cur (a ++ String " " b)%string =
  PyStr.split_aux cur a ++ PyStr.split_aux [] b.
Proof.
  revert cur. induction a as [|c a IH]; intros cur.
  - change ("" ++ String " " b)%string with (String " " b).
    now rewrite split_aux_space, split_aux_nil.
  - change (String c a ++ String " " b)%string
      with (String c (a ++ String " " b)).
    destruct (PyStr.is_space c) eqn:Hc.
    + rewrite !split_aux_space by exact Hc. now rewrite IH, app_assoc.
    + rewrite !split_aux_char by exact Hc. apply IH.
Qed.

(** The tokens of joined texts are the tokens of the texts, in order. *)
Lemma split_join_texts (texts : list string) :
  PyStr.split (PyStr.join " " texts) = concat (map PyStr.split texts).
Proof.
  unfold PyStr.split. induction texts as [|t texts IH]; [reflexivity|].
  destruct texts as [|u texts].
  - simpl. now rewrite app_nil_r.
  - change (PyStr.join " " (t :: u :: texts))
      with (t ++ String " " (PyStr.join " " (u :: texts)))%string.
    rewrite split_aux_app, IH. reflexivity.
Qed.

Lemma unique_from_tokens (words : list string) (seen : gset string) :
  Forall is_token words -> Forall is_token (unique_from seen words).
Proof.
  revert seen. induction words as [|w words IH]; intros seen H; simpl;
    [constructor|].
  apply Forall_cons in H as [Hw Hws].
  destruct (bool_decide _); [now apply IH|].
  constructor; [exact Hw|now apply IH].
Qed.

(** The loop never keeps two words that are equal up to case, nor one
    whose lowercase form was seen. *)
Lemma unique_from_distinct (words : list string) (seen : gset string) :
  NoDup (map PyStr.lower (unique_from seen words)) /\
  forall x, x ∈ map PyStr.lower (unique_from seen words) -> x ∉ seen.
Proof.
  revert seen. induction words as [|w words IH]; intros seen; simpl.
  - split; [constructor|]. intros x Hx. now apply elem_of_nil in Hx.
  - destruct (bool_decide (PyStr.lower w ∈ seen)) eqn:Hd; [apply IH|].
    apply bool_decide_eq_false in Hd.
    destruct (IH ({[PyStr.lower w]} ∪ seen)) as [Hnd Hout]. simpl. split.
    + constructor; [|exact Hnd]. intros Hin. apply (Hout _ Hin).
      apply elem_of_union. left. now apply elem_of_singleton.
    + intros x Hx. apply elem_of_cons in Hx as [->|Hx]; [exact Hd|].
      intros Hs. apply (Hout _ Hx). apply elem_of_union. now right.
Qed.

(** Every word is kept or has its lowercase form seen or kept. *)
Lemma unique_from_covers (words : list string) (seen : gset string) (w : string) :
  w ∈ words ->
  PyStr.lower w ∈ seen \/
  exists v, v ∈ unique_from seen words /\ PyStr.lower v = PyStr.lower w.
Proof.
  revert seen. induction words as [|u words IH]; intros seen Hw;
    [now apply elem_of_nil in Hw|].
  simpl. apply elem_of_cons in Hw as [->|Hw].
  - destruct (bool_decide (PyStr.lower u ∈ seen)) eqn:Hd.
    + left. now apply bool_decide_eq_true in Hd.
    + right. exists u. split; [apply elem_of_cons; now left|reflexivity].
  - destruct (bool_decide (PyStr.lower u ∈ seen)) eqn:Hd.
    + apply (IH seen Hw).
    + destruct (IH ({[PyStr.lower u]} ∪ seen) Hw) as [Hs|(v & Hv & Hl)].
      * apply elem_of_union in Hs as [Hs|Hs]; [|now left].
        apply elem_of_singleton in Hs. right. exists u.
        split; [apply elem_of_cons; now left|now symmetry].
      * right. exists v. split; [apply elem_of_cons; now right|exact Hl].
Qed.

Section Facts.
Context `{W : World}.

(** Once the image is open, [read_text] returns the deduplicated tokens
    of the collected texts, joined by single spaces. *)
Lemma read_text_opened (image_path : string) (img : image) :
  tesseract_available = true ->
  image_open image_path = inr img ->
  read_text image_path =
    Value (PyStr.join " "
             (unique_from ∅ (PyStr.split (PyStr.join " " (collected img))))).
Proof.
  intros Hav Hopen. unfold read_text, collected. rewrite Hav, Hopen. simpl.
  destruct (after_block (image_to_string img Psm6)) as [text1 texts]. simpl.
  destruct (after_default _ _); reflexivity.
Qed.

(** The text returned is normalised: its tokens are pairwise different up
    to case, and it is these tokens joined by single spaces, with no white
    space before, after or doubled. *)
Theorem read_text_output_is_normalised (image_path s : string) :
  read_text image_path = Value s ->
  NoDup (map PyStr.lower (PyStr.split s)) /\
  PyStr.join " " (PyStr.split s) = s.
Proof.
  intros H.
  destruct tesseract_available eqn:Hav;
    [|unfold read_text in H; rewrite Hav in H; discriminate].
  destruct (image_open image_path) as [e|img] eqn:Hopen.
  { unfold read_text in H. rewrite Hav, Hopen in H. simpl in H.
    destruct (_ || _) in H; discriminate. }
  rewrite (read_text_opened _ _ Hav Hopen) in H. injection H as <-.
  rewrite split_join by apply unique_from_tokens, split_tokens.
  split; [apply unique_from_distinct|reflexivity].
Qed.

(** A pass that fails is never reported: once the image is open
    [read_text] returns a text, and when the three passes raise or read
    white space only it returns the empty text, which [main] prints as a
    success. *)
Theorem pass_failures_are_silent
    (prog image_path : string) (rest : list string) (img : image) :
  tesseract_available = true ->
  image_open image_path = inr img ->
  (exists s, read_text image_path = Value s) /\
  (silent (image_to_string img Psm6) ->
   silent (image_to_string img Psm11) ->
   silent (image_to_string img PsmDefault) ->
   read_text image_path = Value ""%string /\
   (pytesseract_installed = true -> path_exists image_path = true ->
    main (prog :: image_path :: rest) =
      {| stdout := [JObj [("text", JStr "")]]; exit := Exited 0 |})).
Proof.
  intros Hav Hopen. split; [rewrite (read_text_opened _ _ Hav Hopen); eauto|].
  intros S1 S2 S3.
  assert (read_text image_path = Value ""%string) as Hr.
  { rewrite (read_text_opened _ _ Hav Hopen). unfold collected.
    assert (forall out, silent out ->
              snd (after_block out) = [] /\
              (forall t1, after_sparse t1 [] out = []) /\
              after_default [] out = []) as Hs.
    { intros [e|o] Ho; simpl; [now repeat split|].
      simpl in Ho. rewrite (strip_blank _ Ho). simpl.
      now repeat split. }
    destruct (Hs _ S1) as (-> & _ & _).
    destruct (Hs _ S2) as (_ & -> & _).
    destruct (Hs _ S3) as (_ & _ & ->). reflexivity. }
  split; [exact Hr|].
  intros Hinst Hpath. unfold main. rewrite Hinst. simpl.
  now rewrite Hpath, Hr.
Qed.

Lemma truthy_false (t : string) : PyStr.truthy t = false -> t = ""%string.
Proof. now destruct t. Qed.

Lemma after_sparse_incl (text1 : option string) (texts : list string)
    (out : string + string) (t : string) :
  t ∈ texts -> t ∈ after_sparse text1 texts out.
Proof.
  intros Ht. unfold after_sparse. destruct out as [e|o]; [exact Ht|].
  destruct (PyStr.truthy _); [|exact Ht].
  destruct text1 as [t1|]; [|exact Ht].
  destruct (negb _); [|exact Ht]. apply elem_of_app. now left.
Qed.

Lemma after_default_incl (texts : list string) (out : string + string)
    (t : string) :
  t ∈ texts -> t ∈ after_default texts out.
Proof.
  intros Ht. unfold after_default. destruct out as [e|o]; [exact Ht|].
  destruct (_ && _); [|exact Ht]. apply elem_of_app. now left.
Qed.

(** The tokens of a collected text are in the result, up to case. *)
Lemma collected_is_kept (image_path s : string) (img : image) (o : string) :
  tesseract_available = true ->
  image_open image_path = inr img ->
  read_text image_path = Value s ->
  PyStr.strip o = ""%string \/ PyStr.strip o ∈ collected img ->
  kept_up_to_case o s.
Proof.
  intros Hav Hopen Hr Hin w Hw.
  destruct Hin as [He|Hin]; [rewrite He in Hw; now apply elem_of_nil in Hw|].
  rewrite (read_text_opened _ _ Hav Hopen) in Hr. injection Hr as <-.
  rewrite split_join by apply unique_from_tokens, split_tokens.
  destruct (unique_from_covers
              (PyStr.split (PyStr.join " " (collected img))) ∅ w)
    as [Hs|Hv]; [|now apply not_elem_of_empty in Hs|exact Hv].
  rewrite split_join_texts. apply list_elem_of_In, in_concat.
  exists (PyStr.split (PyStr.strip o)).
  split; [apply in_map; now apply list_elem_of_In|now apply list_elem_of_In].
Qed.

(** No text is lost but the one of the sparse pass after a failed block
    pass: every token read by the block pass or by the default pass is in
    the result up to case, and so is every token of the sparse pass when
    the block pass returned. *)
Theorem read_text_keeps_tokens
    (image_path s : string) (img : image) :
  tesseract_available = true ->
  image_open image_path = inr img ->
  read_text image_path = Value s ->
  (forall o1, image_to_string img Psm6 = inr o1 -> kept_up_to_case o1 s) /\
  (forall o3, image_to_string img PsmDefault = inr o3 -> kept_up_to_case o3 s) /\
  (forall o1 o2, image_to_string img Psm6 = inr o1 ->
                 image_to_string img Psm11 = inr o2 -> kept_up_to_case o2 s).
Proof.
  intros Hav Hopen Hr.
  pose proof (collected_is_kept image_path s img) as Hkept.
  split; [|split].
  - intros o1 H1. apply Hkept; try assumption. unfold collected. rewrite H1.
    simpl. destruct (PyStr.truthy (PyStr.strip o1)) eqn:T;
      [|left; now apply truthy_false].
    right. apply after_default_incl, after_sparse_incl.
    now apply list_elem_of_singleton.
  - intros o3 H3. apply Hkept; try assumption. unfold collected. rewrite H3.
    unfold after_default at 1.
    destruct (PyStr.truthy (PyStr.strip o3)) eqn:T;
      [|left; now apply truthy_false].
    right. simpl. destruct (bool_decide _) eqn:Hd; simpl.
    + now apply bool_decide_eq_true in Hd.
    + apply elem_of_app. right. now apply list_elem_of_singleton.
  - intros o1 o2 H1 H2. apply Hkept; try assumption. unfold collected.
    rewrite H1, H2. simpl.
    destruct (PyStr.truthy (PyStr.strip o2)) eqn:T2;
      [|left; now apply truthy_false].
    right. apply after_default_incl.
    destruct (String.eqb_spec (PyStr.strip o2) (PyStr.strip o1)) as [E|E]; simpl.
    + rewrite <- E, T2. now apply list_elem_of_singleton.
    + apply elem_of_app. right. now apply list_elem_of_singleton.
Qed.

End Facts.

(** The text of the example: its tokens are distinct up to case. *)
Lemma read_text_output_is_normalised_witness :
  @read_text Ref.acme_world "label.png" = Value "Acme Soda 12oz can"%string /\
  NoDup (map PyStr.lower (PyStr.split "Acme Soda 12oz can")).
Proof.
  split; [vm_compute; reflexivity|].
  apply (@read_text_output_is_normalised Ref.acme_world "label.png").
  vm_compute. reflexivity.
Defined.

(** Two passes that raise and one that reads three spaces. *)
Lemma pass_failures_are_silent_witness :
  @main Worlds.blank_world ["ocr.py"; "label.png"] =
    {| stdout := [JObj [("text", JStr "")]]; exit := Exited 0 |}.
Proof.
  destruct (@pass_failures_are_silent Worlds.blank_world
              "ocr.py" "label.png" [] tt eq_refl eq_refl) as [_ H].
  destruct H as [_ H]; [exact I|reflexivity|exact I|].
  apply H; reflexivity.
Defined.

(** The word "SODA" of the sparse pass is in the result as "Soda". *)
Lemma read_text_keeps_tokens_witness :
  kept_up_to_case " SODA can" "Acme Soda 12oz can".
Proof.
  destruct (@read_text_keeps_tokens Ref.acme_world
              "label.png" "Acme Soda 12oz can" tt eq_refl eq_refl)
    as (_ & _ & H); [vm_compute; reflexivity|].
  apply (H "Acme Soda 12oz "%string " SODA can"%string); reflexivity.
Defined.

End OcrMore.
